(** * Stock anomaly detector: the detection engine and its history store

    A shallow embedding of

    - [stock-anomaly-detector/anomaly_detector.py]  (class [AnomalyDetector]),
    - [main.py]                                     (class [StockMonitor]),
    - [stock_anomaly_detector.py]                   (the standalone [StockMonitor]),
    - [stock-anomaly-detector/data_fetcher.py]      ([validate_data]).

    Prices are numpy [float64] values: they are modelled by the kernel's IEEE
    binary64 floats, and the comparisons the source performs are written with
    the primitive operations ([std == 0] is [PrimFloat.eqb], [abs(z) > t] is
    [PrimFloat.ltb t (abs z)]).  numpy's reductions ([np.mean], [np.std]) and
    scikit-learn's [IsolationForest] are libraries, not code of this
    repository: they are interfaces ([Numpy], [Sklearn]) over which every
    definition and theorem is generic; two small instances at the end of the
    definitions make the model runnable on concrete inputs. *)

From Stdlib Require Import ZArith Floats Sorted.
From stdpp Require Import base list strings gmap.

Set Warnings "-inexact-float".

Local Open Scope Z_scope.
Local Open Scope nat_scope.

(** ** Python values and control *)

Module Py.

Inductive exn : Type :=
| ValueError (msg : string)
| KeyError (key : string)
| IndexError
| NotFittedError           (* sklearn.exceptions.NotFittedError *)
| LibraryError.            (* any exception raised inside a library call *)

Inductive result (A : Type) : Type :=
| Ok (a : A)
| Raise (e : exn).
Arguments Ok {A} a.
Arguments Raise {A} e.

(** A computation over a mutable store [S].  A raised exception keeps the
    store as it was at the point of the raise: Python does not roll back. *)
Definition M (S A : Type) : Type := S -> result A * S.

Definition ret {S A} (a : A) : M S A := fun s => (Ok a, s).
Definition raise {S A} (e : exn) : M S A := fun s => (Raise e, s).
Definition bind {S A B} (m : M S A) (k : A -> M S B) : M S B :=
  fun s => match m s with
           | (Ok a, s') => k a s'
           | (Raise e, s') => (Raise e, s')
           end.
Definition get {S} : M S S := fun s => (Ok s, s).
Definition modify {S} (f : S -> S) : M S unit := fun s => (Ok tt, f s).
Definition lift {S A} (r : result A) : M S A := fun s => (r, s).

(** [l[i]] for [0 <= i]: an [IndexError] out of range. *)
Definition getitem {A} (l : list A) (i : nat) : result A :=
  match l !! i with
  | Some x => Ok x
  | None => Raise IndexError
  end.

(** [l[i] = v] for [0 <= i]: an [IndexError] out of range. *)
Definition setitem {A} (l : list A) (i : nat) (v : A) : result (list A) :=
  if decide (i < length l) then Ok (<[i:=v]> l) else Raise IndexError.

(** [l[lo:hi]] for [0 <= lo], [0 <= hi]: slices never raise. *)
Definition slice {A} (lo hi : nat) (l : list A) : list A :=
  take (hi - lo) (drop lo l).

(** [range(lo, hi)] *)
Definition range (lo hi : nat) : list nat := seq lo (hi - lo).

(** A [for] loop over a loop state; the first exception of the body ends it. *)
Fixpoint for_ {St} (xs : list nat) (body : nat -> St -> result St) (st : St)
    : result St :=
  match xs with
  | [] => Ok st
  | x :: xs' => match body x st with
                | Ok st' => for_ xs' body st'
                | Raise e => Raise e
                end
  end.

(** Every run of [m] takes a store to one related to it by [R], whether it
    returns or raises. *)
Definition preserves {S A} (R : S -> S -> Prop) (m : M S A) : Prop :=
  forall s, R s (m s).2.

End Py.

Import Py.

Global Instance M_ret {S} : MRet (Py.M S) := fun A => @Py.ret S A.
Global Instance M_bind {S} : MBind (Py.M S) := fun A B k m => Py.bind m k.
Global Instance result_ret : MRet Py.result := fun A => @Py.Ok A.
Global Instance result_bind : MBind Py.result := fun A B k r =>
  match r with
  | Py.Ok a => k a
  | Py.Raise e => Py.Raise e
  end.

(** ** The libraries the detector calls *)

(** [np.mean] and [np.std] (population standard deviation, [ddof = 0]) of a
    one-dimensional [float64] array. *)
Class Numpy : Type := {
  np_mean : list float -> float;
  np_std : list float -> float
}.

(** scikit-learn's isolation forest.  [sk_fit contamination X env] trains on
    [X]; it draws from the library's random state [env] and may raise ([None]).
    [sk_predict] gives one label per sample, [1] (inlier) or [-1] (outlier), or
    raises ([None]). *)
Class Sklearn : Type := {
  estimator : Type;
  sk_env : Type;
  sk_fit : float -> list float -> sk_env -> option estimator * sk_env;
  sk_predict : estimator -> list float -> option (list Z)
}.

(** ** Data *)

(** A numpy array as the detector handles them: [float64] or integer. *)
Inductive ndarray : Type :=
| f64 (a : list float)
| i64 (a : list Z).

(** A row of the frame [detect] returns, and of [StockMonitor.history]. *)
Record row : Type := mkRow {
  Time : Z;
  Close : float;
  Mean : float;
  Std : float;
  Method : string;
  Anomaly : bool
}.

(** The fetched frame: the [Close] column indexed by timestamp. *)
Abbreviation price_frame := (list (Z * float)).

Definition index (data : price_frame) : list Z := data.*1.
Definition Close_values (data : price_frame) : list float := data.*2.

Definition zeros_like (prices : list float) : list float :=
  replicate (length prices) 0%float.

(** Storing a Python [bool] into a [float64] array. *)
Definition float_of_bool (b : bool) : float := if b then 1%float else 0%float.

(** Truth value of an array element ([if anomalies[i]:]). *)
Definition truthy (a : ndarray) (i : nat) : result bool :=
  match a with
  | f64 l => x ← getitem l i; Ok (negb (PrimFloat.eqb x 0))
  | i64 l => x ← getitem l i; Ok (negb (x =? 0)%Z)
  end.

(** Equality of two tuples of [float64] ([==] element by element, so a NaN is
    equal to nothing and [0.0 == -0.0]): the test a [dict] lookup of a key
    tuple built in another call comes down to. *)
Fixpoint tuple_eqb (k1 k2 : list float) : bool :=
  match k1, k2 with
  | [], [] => true
  | x :: k1', y :: k2' => PrimFloat.eqb x y && tuple_eqb k1' k2'
  | _, _ => false
  end.

(** [DataFrame.drop_duplicates(subset=['Time'])] ([keep='first']): a row is
    dropped when an earlier row has its [Time]. *)
Fixpoint drop_duplicates_from (seen : list Z) (df : list row) : list row :=
  match df with
  | [] => []
  | r :: df' =>
      if decide (Time r ∈ seen) then drop_duplicates_from seen df'
      else r :: drop_duplicates_from (Time r :: seen) df'
  end.

Definition drop_duplicates (df : list row) : list row :=
  drop_duplicates_from [] df.

(** ** The process state *)

Section Process.

Context {SK : Sklearn}.

(** An [IsolationForest] object: unfitted until [fit] has returned. *)
Record IsolationForest : Type := mkForest {
  contamination : float;
  estimators_ : option estimator
}.

(** What the process prints, logs and sends. *)
Inductive event : Type :=
| LogError (ticker : string) (e : exn)
| NoData (ticker : string)
| ConsoleAlert (ticker : string) (latest : row)
| EmailAlert (ticker : string) (latest : row) (snapshot : list row).

(** The state of the running process: the detector's model cache
    ([AnomalyDetector.models], a [dict] in insertion order), the monitor's
    history ([StockMonitor.history]) and the library's random state.
    [fit_calls] records every call of [IsolationForest.fit] with its
    contamination and training set; [output] is what was logged and alerted. *)
Record process : Type := mkProcess {
  models : list (list float * IsolationForest);
  history : gmap string (list row);
  env : sk_env;
  fit_calls : list (float * list float);
  output : list event
}.

Definition set_models
    (f : list (list float * IsolationForest) -> list (list float * IsolationForest))
    (s : process) : process :=
  mkProcess (f (models s)) (history s) (env s) (fit_calls s) (output s).

Definition set_history (f : gmap string (list row) -> gmap string (list row))
    (s : process) : process :=
  mkProcess (models s) (f (history s)) (env s) (fit_calls s) (output s).

Definition emit (e : event) (s : process) : process :=
  mkProcess (models s) (history s) (env s) (fit_calls s) (output s ++ [e]).

(** [key in self.models] and [self.models[key]]: the first entry whose key
    tuple is equal to [key]. *)
Fixpoint lookup_model (key : list float)
    (ms : list (list float * IsolationForest)) : option IsolationForest :=
  match ms with
  | [] => None
  | (k, m) :: ms' => if tuple_eqb k key then Some m else lookup_model key ms'
  end.

(** [model.fit(X)]: one call of the library, recorded in [fit_calls]; the
    object is fitted only when the call returns. *)
Definition IsolationForest_fit (m : IsolationForest) (X : list float)
    : M process IsolationForest :=
  fun s =>
    let '(r, e') := sk_fit (contamination m) X (env s) in
    let s' := mkProcess (models s) (history s) e'
                (fit_calls s ++ [(contamination m, X)]) (output s) in
    match r with
    | Some est => (Ok (mkForest (contamination m) (Some est)), s')
    | None => (Raise LibraryError, s')
    end.

(** [model.predict(X)]: [NotFittedError] on an object that was never fitted. *)
Definition IsolationForest_predict (m : IsolationForest) (X : list float)
    : result (list Z) :=
  match estimators_ m with
  | None => Raise NotFittedError
  | Some est => match sk_predict est X with
                | Some preds => Ok preds
                | None => Raise LibraryError
                end
  end.

End Process.

(** ** [anomaly_detector.py]: class [AnomalyDetector] *)

Module AnomalyDetector.
Section Detector.

Context {NP : Numpy} {SK : Sklearn}.

(** [self.window_size] and [self.threshold], set once by [__init__]: a
    window size is a count of points, a natural number. *)
Variable window_size : nat.
Variable threshold : float.

(** Lines 22-29 of the loop body: the window, its statistics, the z-score. *)
Definition z_score_locals (prices : list float) (i : nat)
    : result (float * float * float) :=
  let window := slice (i - window_size) i prices in
  let mean := np_mean window in
  let std := np_std window in
  z_score ← (if PrimFloat.eqb std 0 then Ok 0%float
             else p ← getitem prices i; Ok ((p - mean) / std)%float);
  Ok (mean, std, z_score).

(** Lines 31-33: the three stores. *)
Definition z_score_body (prices : list float) (i : nat)
    (arrays : list float * list float * list float)
    : result (list float * list float * list float) :=
  let '(anomalies, means, stds) := arrays in
  '(mean, std, z_score) ← z_score_locals prices i;
  means ← setitem means i mean;
  stds ← setitem stds i std;
  anomalies ← setitem anomalies i
    (float_of_bool (PrimFloat.ltb threshold (PrimFloat.abs z_score)));
  Ok (anomalies, means, stds).

Definition z_score_detection (prices : list float)
    : result (list float * list float * list float) :=
  for_ (range window_size (length prices)) (z_score_body prices)
       (zeros_like prices, zeros_like prices, zeros_like prices).

Definition isolation_forest_detection (prices : list float) : M process ndarray :=
  if decide (length prices < window_size * 2) then mret (f64 (zeros_like prices))
  else
    let X := prices in
    let model_key := take window_size prices in
    s ← get;
    model ← match lookup_model model_key (models s) with
             | Some m => mret m
             | None =>
                 let slot := length (models s) in
                 let m0 := mkForest 0.05%float None in
                 modify (set_models (fun ms => ms ++ [(model_key, m0)]));;
                 m1 ← IsolationForest_fit m0 (take window_size X);
                 modify (set_models (fun ms => <[slot := (model_key, m1)]> ms));;
                 mret m1
             end;
    preds ← lift (IsolationForest_predict model X);
    mret (i64 ((fun p => if (p =? -1)%Z then 1%Z else 0%Z) <$> preds)).

(** The loop of lines 76-85 building [results]. *)
Definition detect_results (method : string) (timestamps : list Z)
    (prices : list float) (anomalies : ndarray) (means stds : list float)
    : result (list row) :=
  for_ (range 0 (length prices))
    (fun i results =>
       flagged ← truthy anomalies i;
       if flagged : bool then
         t ← getitem timestamps i;
         p ← getitem prices i;
         m ← (if decide (method = "zscore") then getitem means i else Ok nan);
         s ← (if decide (method = "zscore") then getitem stds i else Ok nan);
         Ok (results ++ [mkRow t p m s method true])
       else Ok results)
    [].

Definition detect (data : price_frame) (method : string)
    : M process (option (list row)) :=
  if decide (length data < window_size) then mret None
  else
    let prices := Close_values data in
    let timestamps := index data in
    '(anomalies, means, stds) ←
      (if decide (method = "zscore") then
         '(a, m, s) ← lift (z_score_detection prices);
         mret (f64 a, m, s)
       else if decide (method = "isolation") then
         a ← isolation_forest_detection prices;
         mret (a, zeros_like prices, zeros_like prices)
       else raise (ValueError ("Unknown method: " +:+ method)));
    results ← lift (detect_results method timestamps prices anomalies means stds);
    mret (Some results).

End Detector.
End AnomalyDetector.

(** ** [data_fetcher.py] and [main.py]: class [StockMonitor] *)

Module StockMonitor.
Section Monitor.

Context {NP : Numpy} {SK : Sklearn}.

(** [WINDOW_SIZE] and [ANOMALY_THRESHOLD] of [config], given to the one
    [AnomalyDetector] that serves every ticker. *)
Variable window_size : nat.
Variable threshold : float.

(** [DataFetcher.validate_data].  The fetched value is [None] when the request
    raised; a fetched frame always has its [Close] column. *)
Definition validate_data (data : option price_frame) (ticker : string)
    : M process bool :=
  match data with
  | None | Some [] => modify (emit (NoData ticker));; mret false
  | Some (_ :: _) => mret true
  end.

(** [self.history[ticker]] *)
Definition history_of (ticker : string) : M process (list row) :=
  s ← get;
  match history s !! ticker with
  | Some h => mret h
  | None => raise (KeyError ticker)
  end.

Definition update_history (ticker : string) (new_data : option (list row))
    : M process unit :=
  match new_data with
  | Some (r :: rs) =>
      old ← history_of ticker;
      modify (set_history <[ticker := drop_duplicates (old ++ r :: rs)]>)
  | _ => mret tt
  end.

(** Lines 72-75 and 77-80: the console and e-mail alert for the last row.
    [send_email_alert] catches its own exceptions, so a delivery failure does
    not reach the caller. *)
Definition process_alerts (ticker : string) (results : option (list row))
    : M process unit :=
  match results with
  | Some (r :: rs) =>
      let latest := List.last rs r in
      modify (emit (ConsoleAlert ticker latest));;
      h ← history_of ticker;
      modify (emit (EmailAlert ticker latest h))
  | _ => mret tt
  end.

(** Lines 58-80: the body of the [try] for one ticker; [fetched] is what
    [fetch_stock_data] returned. *)
Definition monitor_try (ticker : string) (fetched : option price_frame)
    : M process unit :=
  valid ← validate_data fetched ticker;
  match valid, fetched with
  | true, Some data =>
      zscore_results ← AnomalyDetector.detect window_size threshold data "zscore";
      isolation_results ←
        AnomalyDetector.detect window_size threshold data "isolation";
      update_history ticker zscore_results;;
      update_history ticker isolation_results;;
      process_alerts ticker zscore_results;;
      process_alerts ticker isolation_results
  | _, _ => mret tt
  end.

(** Lines 57-83: [try ... except Exception as e: log]. *)
Definition monitor_ticker (ticker : string) (fetched : option price_frame)
    (s : process) : process :=
  match monitor_try ticker fetched s with
  | (Ok _, s') => s'
  | (Raise e, s') => emit (LogError ticker e) s'
  end.

(** One pass of [for ticker in STOCKS_TO_MONITOR]. *)
Definition monitor_cycle (fetches : list (string * option price_frame))
    (s : process) : process :=
  foldl (fun s tf => monitor_ticker tf.1 tf.2 s) s fetches.

(** [StockMonitor.__init__]: an empty frame per monitored ticker, no model. *)
Definition init (STOCKS_TO_MONITOR : list string) (e : sk_env) : process :=
  mkProcess [] (list_to_map ((fun t => (t, [])) <$> STOCKS_TO_MONITOR)) e [] [].

End Monitor.
End StockMonitor.

(** ** [stock_anomaly_detector.py]: the standalone [StockMonitor] *)

Module Standalone.
Section Monitor.

Context {NP : Numpy}.

Variable window_size : nat.
Variable threshold : float.

(** A row of the standalone monitor's frame. *)
Record data_point : Type := mkPoint {
  pClose : float;
  pMean : float;
  pStd : float;
  pZScore : float;
  pAnomaly : bool;
  pTime : Z
}.

(** Lines 62-85: the body of the loop of [detect_anomalies]. *)
Definition detect_anomalies_body (timestamps : list Z) (close_prices : list float)
    (i : nat) (anomalies : list data_point) : result (list data_point) :=
  let window := slice (i - window_size) i close_prices in
  current_price ← getitem close_prices i;
  let mean := np_mean window in
  let std := np_std window in
  let z_score := if PrimFloat.eqb std 0 then 0%float
                 else ((current_price - mean) / std)%float in
  let is_anomaly := PrimFloat.ltb threshold (PrimFloat.abs z_score) in
  t ← getitem timestamps i;
  Ok (anomalies ++ [mkPoint current_price mean std z_score is_anomaly t]).

(** Lines 59-85: the per-index loop. *)
Definition detect_anomalies_loop (data : price_frame) : result (list data_point) :=
  let close_prices := Close_values data in
  for_ (range window_size (length close_prices))
       (detect_anomalies_body (index data) close_prices) [].

End Monitor.
End Standalone.

(** ** Two instances of the libraries, to run the model *)

(** A direct reading of the definitions of mean and population standard
    deviation in binary64 arithmetic, summing from left to right.  (numpy sums
    pairwise, so the last bits of its results can differ on long windows.) *)
Module Reference.

Definition fsum (l : list float) : float := foldl PrimFloat.add 0%float l.

Definition flen (l : list float) : float :=
  PrimFloat.of_uint63 (Uint63.of_Z (Z.of_nat (length l))).

Definition mean (l : list float) : float := (fsum l / flen l)%float.

Definition std (l : list float) : float :=
  let m := mean l in
  PrimFloat.sqrt (mean ((fun x => ((x - m) * (x - m))%float) <$> l)).

Definition numpy : Numpy := {| np_mean := mean; np_std := std |}.

(** A test double for the isolation forest.  Its environment scripts the
    outcome of the coming calls of [fit] ([false]: the call raises; once the
    script is used up every call returns); a fitted model is the range of its
    training set, and [predict] labels [-1] what lies outside it. *)
Definition fmin (l : list float) : float :=
  foldl (fun a x => if PrimFloat.ltb x a then x else a) infinity l.
Definition fmax (l : list float) : float :=
  foldl (fun a x => if PrimFloat.ltb a x then x else a) neg_infinity l.

Definition range_forest : Sklearn := {|
  estimator := float * float;
  sk_env := list bool;
  sk_fit := fun _ X script =>
    match script with
    | false :: script' => (None, script')
    | _ => (Some (fmin X, fmax X), tail script)
    end;
  sk_predict := fun est X =>
    Some ((fun x => if PrimFloat.ltb x est.1 || PrimFloat.ltb est.2 x
                    then (-1)%Z else 1%Z) <$> X)
|}.

End Reference.

(** ** Concrete runs *)

Module Run.

(** The monitor over the two reference libraries, with a window of two
    points and the default threshold. *)
Definition monitor_ticker :=
  @StockMonitor.monitor_ticker Reference.numpy Reference.range_forest 2 3%float.

Definition detect :=
  @AnomalyDetector.detect Reference.numpy Reference.range_forest 2 3%float.

Definition init (tickers : list string) (script : list bool)
    : @process Reference.range_forest :=
  @StockMonitor.init Reference.range_forest tickers script.

(** A frame with consecutive timestamps. *)
Definition frame (prices : list float) : price_frame :=
  imap (fun i p => (Z.of_nat i, p)) prices.

(** Prices alternating 9 and 11, a spike to 50, then 10, at times 0 to 5. *)
Definition spike_tail : price_frame :=
  [(1%Z, 11%float); (2%Z, 9%float); (3%Z, 11%float); (4%Z, 50%float);
   (5%Z, 10%float)].
Definition spike : price_frame := (0%Z, 9%float) :: spike_tail.

(** Constant prices. *)
Definition flat : price_frame := frame [10; 10; 10]%float.

(** Three times the price 0.1, then 0.2.  The sum of the three in binary64 is
    0.30000000000000004 and their mean 0.10000000000000002, not 0.1. *)
Definition tenths : price_frame := frame [0.1; 0.1; 0.1; 0.2]%float.

(** A z-score anomaly stored at time 5, an isolation anomaly found at time 3. *)
Definition late : row := mkRow 5 100 10 1 "zscore" true.
Definition early : row := mkRow 3 50 nan nan "isolation" true.

(** Two inputs of the density detector with the same two leading prices. *)
Definition first_call : list float := [9; 11; 9; 11; 50]%float.
Definition second_call : list float := [9; 11; 10; 10; 10; 12]%float.

Definition isolation_forest_detection :=
  @AnomalyDetector.isolation_forest_detection Reference.range_forest 2.

Definition stored_late : @process Reference.range_forest :=
  @mkProcess Reference.range_forest [] {["AAPL" := [late]]} [] [] [].

End Run.

(** ** Vocabulary of the specification *)

Module Spec.
Section Parametric.

Context {NP : Numpy}.

Variable window_size : nat.
Variable threshold : float.

(** The trailing window of point [i]: the [window_size] prices before it. *)
Definition trailing_window (prices : list float) (i : nat) : list float :=
  take window_size (drop (i - window_size) prices).

(** The z-score of a price against the statistics of its window: zero when
    the standard deviation is zero. *)
Definition z_score (p mean std : float) : float :=
  if PrimFloat.eqb std 0 then 0%float else ((p - mean) / std)%float.

(** [abs(z-score) > threshold] *)
Definition exceeds (p mean std : float) : bool :=
  PrimFloat.ltb threshold (PrimFloat.abs (z_score p mean std)).

(** Point [i] is flagged: it has a full trailing window and its z-score
    against that window exceeds the threshold. *)
Definition flagged (prices : list float) (i : nat) : bool :=
  match prices !! i with
  | Some p =>
      let w := trailing_window prices i in
      bool_decide (window_size <= i) && exceeds p (np_mean w) (np_std w)
  | None => false
  end.

(** The record of point [i], carrying the statistics of its window. *)
Definition record_of (data : price_frame) (i : nat) : option row :=
  '(t, p) ← data !! i;
  let w := trailing_window (Close_values data) i in
  Some (mkRow t p (np_mean w) (np_std w) "zscore" true).

Definition flagged_record (data : price_frame) (i : nat) : option row :=
  if flagged (Close_values data) i then record_of data i else None.

(** A window of constant prices: all its prices are one price.  In exact
    arithmetic these are the windows of zero standard deviation. *)
Definition constant_window (w : list float) : Prop :=
  exists c, Forall (fun p => p = c) w.

(** What is said of such windows: the point that follows a window of constant
    prices has no record, whatever its price. *)
Definition constant_never_flagged (data : price_frame) (i : nat) : Prop :=
  window_size <= i < length data ->
  constant_window (trailing_window (Close_values data) i) ->
  flagged_record data i = None.

End Parametric.

Section Density.

Context {NP : Numpy} {SK : Sklearn}.

Variable window_size : nat.
Variable threshold : float.

(** The labels a cached model gives a whole input sequence: the outcome of
    lines 53-54 for the model [m]. *)
Definition predicted_by (m : IsolationForest) (X : list float) : result ndarray :=
  preds ← IsolationForest_predict m X;
  Ok (i64 ((fun p => if (p =? -1)%Z then 1%Z else 0%Z) <$> preds)).

(** The calls of [fit] so far whose training set is equal to [key]. *)
Definition fits_of (key : list float) (s : process) : list (float * list float) :=
  List.filter (fun c => tuple_eqb c.2 key) (fit_calls s).

(** The cached model of [key] is still the one found for it, and [fit] was
    not called again on that key. *)
Definition cache_kept (key : list float) (s s' : process) : Prop :=
  forall m, lookup_model key (models s) = Some m ->
    lookup_model key (models s') = Some m /\ fits_of key s' = fits_of key s.

(** One operation of the running process: a call of the detector, or the
    monitor handling one ticker. *)
Inductive step : process -> process -> Prop :=
| step_isolation (prices : list float) (s : process) :
    step s (AnomalyDetector.isolation_forest_detection window_size prices s).2
| step_detect (data : price_frame) (method : string) (s : process) :
    step s (AnomalyDetector.detect window_size threshold data method s).2
| step_monitor (ticker : string) (fetched : option price_frame) (s : process) :
    step s (StockMonitor.monitor_ticker window_size threshold ticker fetched s).

End Density.

(** The frame [update_history] stores for a ticker whose stored frame is
    [old]: [old] itself when there is nothing new. *)
Definition merged (old : list row) (new_data : option (list row)) : list row :=
  match new_data with
  | Some (r :: rs) => drop_duplicates (old ++ r :: rs)
  | _ => old
  end.

(** The history is as it was. *)
Definition same_history {SK : Sklearn} (s s' : process) : Prop :=
  history s' = history s.

(** The frames of the tickers other than [ticker] are as they were. *)
Definition others_kept {SK : Sklearn} (ticker : string) (s s' : process) : Prop :=
  forall other, other <> ticker -> history s' !! other = history s !! other.

(** Every point of the fetched batch is in the stored frame. *)
Definition batch_merged (data : price_frame) (stored : list row) : Prop :=
  forall t p, (t, p) ∈ data -> exists r, r ∈ stored /\ Time r = t /\ Close r = p.

(** The rows of a frame that may be absent ([None]). *)
Definition records (r : option (list row)) : list row := default [] r.

(** The first row of a frame with a given [Time]. *)
Definition first_with_time (t : Z) (df : list row) : option row :=
  List.find (fun r => bool_decide (Time r = t)) df.

(** What a merge is said to establish for the stored series [result], from
    the series [old] and the batch [new]: the union of the timestamps, each
    once, with the value seen first, in ascending order. *)
Definition merged_sorted (old new result : list row) : Prop :=
  (forall t, t ∈ Time <$> result <-> t ∈ Time <$> old \/ t ∈ Time <$> new) /\
  NoDup (Time <$> result) /\
  (forall r, r ∈ result -> first_with_time (Time r) (old ++ new) = Some r) /\
  StronglySorted Z.lt (Time <$> result).

(** The same without the order: rows stay where they first appeared. *)
Definition merged_first_seen (old new result : list row) : Prop :=
  (forall t, t ∈ Time <$> result <-> t ∈ Time <$> old \/ t ∈ Time <$> new) /\
  NoDup (Time <$> result) /\
  (forall r, r ∈ result -> first_with_time (Time r) (old ++ new) = Some r) /\
  result = old ++ drop_duplicates_from (Time <$> old) new.

End Spec.

(** ** [data_fetcher.py]: [DataFetcher.fetch_stock_data] *)

Module DataFetcher.

(** What [stock.history(...)] gives: an exception, or a frame with or without
    a [Close] column; a close may be NaN. *)
Inductive response : Type :=
| Failed
| Frame (close : option price_frame).

(** What the call does besides returning. *)
Inductive effect : Type :=
| Sleep (seconds : float)
| PrintError (ticker : string).

(** [data[['Close']].dropna()]: the rows whose close is not NaN. *)
Definition dropna (rows : price_frame) : price_frame :=
  List.filter (fun r => negb (PrimFloat.is_nan r.2)) rows.

(** [fetch_stock_data(ticker)] on the fetcher's [last_fetch_time].  The two
    readings of [time.time()] (line 16, read only for a ticker fetched before,
    and line 23) and the library's response are given; the result is the
    value returned, the new [last_fetch_time] and what was slept and printed. *)
Definition fetch_stock_data (ticker : string) (clock_before clock_after : float)
    (resp : response) (last_fetch_time : gmap string float)
    : option price_frame * gmap string float * list effect :=
  let waited :=
    match last_fetch_time !! ticker with
    | Some last =>
        let elapsed := (clock_before - last)%float in
        if PrimFloat.ltb elapsed 2 then [Sleep (2 - elapsed)%float] else []
    | None => []
    end in
  match resp with
  | Failed => (None, last_fetch_time, waited ++ [PrintError ticker])
  | Frame close =>
      let last_fetch_time := <[ticker := clock_after]> last_fetch_time in
      match close with
      | Some rows => (Some (dropna rows), last_fetch_time, waited)
      | None => (None, last_fetch_time, waited ++ [PrintError ticker])
      end
  end.

End DataFetcher.

(** ** [main.py]: a ticker of the polling loop, from the request on *)

Module Poll.
Section Monitor.

Context {NP : Numpy} {SK : Sklearn}.

Variable window_size : nat.
Variable threshold : float.

(** The monitor with its fetcher. *)
Record monitor : Type := mkMonitor {
  proc : process;
  last_fetch_time : gmap string float;
  effects : list DataFetcher.effect
}.

(** Lines 57-83 of [StockMonitor.monitor] for one ticker: the request, then
    validation, detection, history and alerts. *)
Definition poll (ticker : string) (clock_before clock_after : float)
    (resp : DataFetcher.response) (m : monitor) : monitor :=
  let '(data, times, done) :=
    DataFetcher.fetch_stock_data ticker clock_before clock_after resp
      (last_fetch_time m) in
  mkMonitor (StockMonitor.monitor_ticker window_size threshold ticker data (proc m))
    times (effects m ++ done).

(** The alerts of lines 72-80 for one result frame, given the history handed
    to the e-mail. *)
Definition alerts_of (ticker : string) (results : option (list row))
    (snapshot : list row) : list event :=
  match results with
  | Some (r :: rs) =>
      [ConsoleAlert ticker (List.last rs r);
       EmailAlert ticker (List.last rs r) snapshot]
  | _ => []
  end.

(** What [detect] returns on the z-score path (see [ZScore.detect_zscore_eq]). *)
Definition zscore_results (data : price_frame) : option (list row) :=
  if decide (length data < window_size) then None
  else Some (omap (Spec.flagged_record window_size threshold data)
               (seq window_size (length data - window_size))).

(** The record of point [i] on the density path, when its label is [-1]. *)
Definition outlier_record (data : price_frame) (preds : list Z) (i : nat)
    : option row :=
  '(t, p) ← data !! i;
  label ← preds !! i;
  if decide (label = (-1)%Z) then Some (mkRow t p nan nan "isolation" true)
  else None.

(** The states the process can be in: those reached from [__init__] by
    operations of the detector and of the monitor. *)
Definition reachable (s : process) : Prop :=
  exists tickers e,
    rtc (Spec.step window_size threshold) (StockMonitor.init tickers e) s.

End Monitor.

(** A row as [detect] builds them: flagged, tagged with one of the two methods. *)
Definition anomaly_row (r : row) : Prop :=
  Anomaly r = true /\ (Method r = "zscore" \/ Method r = "isolation").

Section Observations.

Context {SK : Sklearn}.

(** Neither the history nor the output has changed. *)
Definition quiet (s s' : process) : Prop :=
  history s' = history s /\ output s' = output s.

(** The detector's side of the state has not changed. *)
Definition cache_untouched (s s' : process) : Prop :=
  models s' = models s /\ env s' = env s /\ fit_calls s' = fit_calls s.

(** No stored frame repeats a timestamp. *)
Definition deduplicated (s : process) : Prop :=
  forall ticker h, history s !! ticker = Some h -> NoDup (Time <$> h).

(** Every stored frame starts with the frame stored before. *)
Definition grown (s s' : process) : Prop :=
  forall ticker h, history s !! ticker = Some h ->
    exists h', history s' !! ticker = Some h' /\ h `prefix_of` h'.

(** The cache and the record of the calls of [fit] tell the same story: the
    keys, in order, are the training sets fitted, every fit and every model
    has contamination 0.05, and no two keys are equal tuples. *)
Definition cache_sound (s : process) : Prop :=
  (models s).*1 = (fit_calls s).*2 /\
  Forall (fun c => c.1 = 0.05%float) (fit_calls s) /\
  Forall (fun km => contamination km.2 = 0.05%float) (models s) /\
  forall i j k1 k2, i < j ->
    (models s).*1 !! i = Some k1 -> (models s).*1 !! j = Some k2 ->
    tuple_eqb k1 k2 = false.

End Observations.

End Poll.

(** ** [stock_anomaly_detector.py]: [detect_anomalies] and [monitor] *)

Module StandaloneMonitor.
Section Monitor.

Context {NP : Numpy}.

Variable window_size : nat.
Variable threshold : float.

(** What the standalone monitor prints and shows. *)
Inductive event : Type :=
| PrintAnomalies (ticker : string) (anomalies : list Standalone.data_point)
| SendAlert (ticker : string) (anomaly_data : Standalone.data_point)
| Plot (ticker : string) (df : list Standalone.data_point).

(** [self.history] and the output so far. *)
Record state : Type := mkState {
  history : gmap string (list Standalone.data_point);
  output : list event
}.

Definition emit (e : event) (s : state) : state :=
  mkState (history s) (output s ++ [e]).

(** [self.history[ticker]] *)
Definition history_of (ticker : string)
    : M state (list Standalone.data_point) :=
  s ← Py.get;
  match history s !! ticker with
  | Some h => mret h
  | None => Py.raise (KeyError ticker)
  end.

(** [detect_anomalies(ticker)]; [fetched] is the outcome of [fetch_data], a
    frame or the exception the request raised.  A frame built from an empty
    list of rows has no column, so selecting ['Anomaly'] from it raises. *)
Definition detect_anomalies (ticker : string) (fetched : result price_frame)
    : M state (option (list Standalone.data_point)) :=
  data ← Py.lift fetched;
  if decide (length data < window_size) then mret None
  else
    anomalies ← Py.lift (Standalone.detect_anomalies_loop window_size threshold data);
    old ← history_of ticker;
    Py.modify (fun s => mkState (<[ticker := old ++ anomalies]> (history s))
                          (output s));;
    match anomalies with
    | [] => Py.raise (KeyError "Anomaly")
    | _ :: _ => mret (Some (List.filter Standalone.pAnomaly anomalies))
    end.

Definition plot_anomalies (ticker : string) : M state unit :=
  df ← history_of ticker;
  if decide (length df = 0) then mret tt else Py.modify (emit (Plot ticker df)).

(** Lines 104-110: one ticker of the loop. *)
Definition monitor_ticker (ticker : string) (fetched : result price_frame)
    : M state unit :=
  anomalies ← detect_anomalies ticker fetched;
  match anomalies with
  | Some (a :: rest) =>
      Py.modify (emit (PrintAnomalies ticker (a :: rest)));;
      Py.modify (emit (SendAlert ticker (List.last rest a)));;
      plot_anomalies ticker
  | _ => mret tt
  end.

(** Lines 103-110: one pass of [for ticker in self.tickers]; nothing catches
    an exception of a ticker. *)
Fixpoint monitor_cycle (fetches : list (string * result price_frame))
    : M state unit :=
  match fetches with
  | [] => mret tt
  | (ticker, fetched) :: rest =>
      monitor_ticker ticker fetched;; monitor_cycle rest
  end.

(** [__init__]: an empty frame per ticker. *)
Definition init (tickers : list string) : state :=
  mkState (list_to_map ((fun t => (t, [])) <$> tickers)) [].

(** The row the loop builds for index [i]. *)
Definition row_at (data : price_frame) (i : nat) : Standalone.data_point :=
  let t := default 0%Z (index data !! i) in
  let p := default 0%float (Close_values data !! i) in
  let w := Spec.trailing_window window_size (Close_values data) i in
  Standalone.mkPoint p (np_mean w) (np_std w)
    (Spec.z_score p (np_mean w) (np_std w))
    (Spec.exceeds threshold p (np_mean w) (np_std w)) t.

(** The row of [detect]'s frame with the fields of a row of this monitor. *)
Definition to_row (pt : Standalone.data_point) : row :=
  mkRow (Standalone.pTime pt) (Standalone.pClose pt) (Standalone.pMean pt)
    (Standalone.pStd pt) "zscore" true.

End Monitor.
End StandaloneMonitor.

(** ** More concrete runs *)

Module Sample.

(** The response of the library for the spike, with a row whose close is
    missing. *)
Definition response_rows : price_frame :=
  (0%Z, 9%float) :: (1%Z, 11%float) :: (2%Z, nan) :: (3%Z, 9%float) ::
  (4%Z, 11%float) :: (5%Z, 50%float) :: (6%Z, 10%float) :: [].

(** A monitor that has fetched nothing yet. *)
Definition fresh (tickers : list string) (script : list bool)
    : @Poll.monitor Reference.range_forest :=
  Poll.mkMonitor (Run.init tickers script) ∅ [].

Definition poll :=
  @Poll.poll Reference.numpy Reference.range_forest 2 3%float.

(** Prices whose first one is NaN. *)
Definition nan_first : list float := [nan; 11; 9; 11; 50]%float.

(** The standalone monitor, with a window of two points. *)
Definition detect_anomalies :=
  @StandaloneMonitor.detect_anomalies Reference.numpy 2 3%float.

Definition monitor_cycle :=
  @StandaloneMonitor.monitor_cycle Reference.numpy 2 3%float.

(** A frame of exactly two rows. *)
Definition two_rows : price_frame := [(0%Z, 9%float); (1%Z, 11%float)].

End Sample.

(** * Properties *)

(** ** Comparisons of binary64 values *)

Module Float64.

Lemma SFcompare_finite_Eq (s1 s2 : bool) (m1 m2 : positive) (e1 e2 : Z) :
  SFcompare (S754_finite s1 m1 e1) (S754_finite s2 m2 e2) = Some Eq <->
  s1 = s2 /\ m1 = m2 /\ e1 = e2.
Proof.
  simpl. split.
  - intros H.
    destruct s1, s2; try discriminate;
      destruct (Z.compare_spec e1 e2); try discriminate; subst;
      destruct (Pos.compare_cont Eq m1 m2) eqn:Hm; try discriminate;
      apply Pos.compare_eq in Hm; subst; auto.
  - intros (-> & -> & ->). rewrite Z.compare_refl.
    change (Pos.compare_cont Eq m2 m2) with (Pos.compare m2 m2).
    rewrite Pos.compare_refl. destruct s2; reflexivity.
Qed.

Lemma SFeqb_finite (s1 s2 : bool) (m1 m2 : positive) (e1 e2 : Z) :
  SFeqb (S754_finite s1 m1 e1) (S754_finite s2 m2 e2) = true <->
  s1 = s2 /\ m1 = m2 /\ e1 = e2.
Proof.
  rewrite <- SFcompare_finite_Eq. unfold SFeqb.
  destruct (SFcompare _ _) as [[]|]; split; congruence.
Qed.

Lemma SFeqb_sym (a b : spec_float) : SFeqb a b = true -> SFeqb b a = true.
Proof.
  destruct a as [sa|sa| |sa ma ea], b as [sb|sb| |sb mb eb];
    try (rewrite !SFeqb_finite; intuition congruence);
    unfold SFeqb; simpl; try discriminate; try reflexivity;
    try (destruct sa; discriminate); try (destruct sb; discriminate);
    destruct sa, sb; (reflexivity || discriminate).
Qed.

Lemma SFeqb_trans (a b c : spec_float) :
  SFeqb a b = true -> SFeqb b c = true -> SFeqb a c = true.
Proof.
  destruct a as [sa|sa| |sa ma ea], b as [sb|sb| |sb mb eb],
           c as [sc|sc| |sc mc ec];
    try (rewrite !SFeqb_finite; intuition congruence);
    unfold SFeqb; simpl; try discriminate; try reflexivity;
    try (destruct sa; discriminate); try (destruct sb; discriminate);
    try (destruct sc; discriminate);
    try (destruct sa, sb; discriminate); try (destruct sb, sc; discriminate);
    try (destruct sa, sb, sc; (reflexivity || discriminate)).
Qed.

Lemma eqb_sym (x y : float) :
  PrimFloat.eqb x y = true -> PrimFloat.eqb y x = true.
Proof. rewrite !FloatAxioms.eqb_spec. apply SFeqb_sym. Qed.

Lemma eqb_trans (x y z : float) :
  PrimFloat.eqb x y = true -> PrimFloat.eqb y z = true ->
  PrimFloat.eqb x z = true.
Proof. rewrite !FloatAxioms.eqb_spec. apply SFeqb_trans. Qed.

(** A positive threshold is not negative. *)
Lemma positive_not_negative (t : float) :
  PrimFloat.ltb 0 t = true -> PrimFloat.ltb t 0 = false.
Proof.
  rewrite !FloatAxioms.ltb_spec. change (Prim2SF 0) with (S754_zero false).
  unfold SFltb, SFcompare.
  destruct (Prim2SF t) as [s|s| |s m e]; try reflexivity; destruct s; auto.
Qed.

Lemma float_of_bool_truthy (b : bool) :
  negb (PrimFloat.eqb (float_of_bool b) 0) = b.
Proof. destruct b; reflexivity. Qed.

Lemma tuple_eqb_sym (k1 k2 : list float) :
  tuple_eqb k1 k2 = true -> tuple_eqb k2 k1 = true.
Proof.
  revert k2. induction k1 as [|x k1 IH]; intros [|y k2]; simpl; try done.
  rewrite !andb_true_iff. intros [Hxy Hk]. split; [by apply eqb_sym | by apply IH].
Qed.

Lemma tuple_eqb_trans (k1 k2 k3 : list float) :
  tuple_eqb k1 k2 = true -> tuple_eqb k2 k3 = true -> tuple_eqb k1 k3 = true.
Proof.
  revert k2 k3. induction k1 as [|x k1 IH]; intros [|y k2] [|z k3]; simpl; try done.
  rewrite !andb_true_iff. intros [Hxy H12] [Hyz H23].
  split; [by eapply eqb_trans | by eapply IH].
Qed.

(** Two equal tuples are equal to the same tuples. *)
Lemma tuple_eqb_congr (k k1 k2 : list float) :
  tuple_eqb k1 k2 = true -> tuple_eqb k k1 = tuple_eqb k k2.
Proof.
  intros H12.
  destruct (tuple_eqb k k1) eqn:H1, (tuple_eqb k k2) eqn:H2; try done.
  - by rewrite (tuple_eqb_trans _ _ _ H1 H12) in H2.
  - by rewrite (tuple_eqb_trans _ _ _ H2 (tuple_eqb_sym _ _ H12)) in H1.
Qed.

End Float64.

(** ** Loops and slices *)

Module Loops.

(** The invariant rule for a [for] loop over [range(lo, lo + n)]. *)
Lemma for_seq_invariant {St} (P : nat -> St -> Prop)
    (body : nat -> St -> result St) (lo n : nat) (st : St) :
  P lo st ->
  (forall i st0, lo <= i < lo + n -> P i st0 ->
     exists st1, body i st0 = Ok st1 /\ P (S i) st1) ->
  exists st', for_ (seq lo n) body st = Ok st' /\ P (lo + n) st'.
Proof.
  revert lo st. induction n as [|n IH]; intros lo st HP Hstep; simpl.
  - exists st. by rewrite Nat.add_0_r.
  - destruct (Hstep lo st) as (st1 & -> & HP1); [lia | done |].
    destruct (IH (S lo) st1 HP1) as (st' & Hfor & HP').
    { intros i st0 Hi. apply Hstep. lia. }
    exists st'. split; [done|]. by replace (lo + S n) with (S lo + n) by lia.
Qed.

Lemma getitem_Some {A} (l : list A) (i : nat) (x : A) :
  l !! i = Some x -> getitem l i = Ok x.
Proof. unfold getitem. by intros ->. Qed.

Lemma setitem_lt {A} (l : list A) (i : nat) (v : A) :
  i < length l -> setitem l i v = Ok (<[i:=v]> l).
Proof. unfold setitem. intros H. by rewrite decide_True. Qed.

(** [prices[i - w : i]] is the window of the [w] prices before [i]. *)
Lemma slice_trailing {A} (l : list A) (w i : nat) :
  w <= i -> slice (i - w) i l = take w (drop (i - w) l).
Proof. intros H. unfold slice. f_equal. lia. Qed.

Lemma trailing_length {A} (l : list A) (w i : nat) :
  w <= i <= length l -> length (take w (drop (i - w) l)) = w.
Proof. intros H. rewrite length_take, length_drop. lia. Qed.

Lemma trailing_lookup {A} (l : list A) (w i j : nat) :
  j < w -> take w (drop (i - w) l) !! j = l !! (i - w + j).
Proof. intros H. by rewrite lookup_take_lt, lookup_drop. Qed.

End Loops.

(** ** The rolling z-score detector *)

Module ZScore.
Section Facts.

Context {NP : Numpy} {SK : Sklearn}.

Variable window_size : nat.
Variable threshold : float.

Local Abbreviation z_score_locals := (AnomalyDetector.z_score_locals window_size).
Local Abbreviation z_score_body :=
  (AnomalyDetector.z_score_body window_size threshold).
Local Abbreviation z_score_detection :=
  (AnomalyDetector.z_score_detection window_size threshold).
Local Abbreviation detect := (AnomalyDetector.detect window_size threshold).
Local Abbreviation window := (Spec.trailing_window window_size).
Local Abbreviation flagged := (Spec.flagged window_size threshold).
Local Abbreviation flagged_record :=
  (Spec.flagged_record window_size threshold).

(** What one iteration computes. *)
Lemma z_score_locals_eq (prices : list float) (i : nat) (p : float) :
  window_size <= i -> prices !! i = Some p ->
  z_score_locals prices i =
    Ok (np_mean (window prices i), np_std (window prices i),
        Spec.z_score p (np_mean (window prices i)) (np_std (window prices i))).
Proof.
  intros Hi Hp. unfold AnomalyDetector.z_score_locals, Spec.z_score.
  rewrite Loops.slice_trailing by done. fold (window prices i).
  destruct (PrimFloat.eqb _ 0); simpl; [done|].
  by rewrite (Loops.getitem_Some _ _ _ Hp).
Qed.

(** The three arrays [z_score_detection] returns, entry by entry. *)
Lemma z_score_detection_arrays (prices : list float) :
  exists anomalies means stds,
    z_score_detection prices = Ok (anomalies, means, stds) /\
    length anomalies = length prices /\
    length means = length prices /\
    length stds = length prices /\
    forall i, i < length prices ->
      anomalies !! i = Some (float_of_bool (flagged prices i)) /\
      means !! i = Some (if decide (window_size <= i)
                         then np_mean (window prices i) else 0%float) /\
      stds !! i = Some (if decide (window_size <= i)
                        then np_std (window prices i) else 0%float).
Proof.
  set (n := length prices).
  pose (P := fun (k : nat) (st : list float * list float * list float) =>
    length st.1.1 = n /\ length st.1.2 = n /\ length st.2 = n /\
    forall i, i < n ->
      st.1.1 !! i = Some (if decide (i < k)
                          then float_of_bool (flagged prices i) else 0%float) /\
      st.1.2 !! i = Some (if decide (window_size <= i < k)
                          then np_mean (window prices i) else 0%float) /\
      st.2 !! i = Some (if decide (window_size <= i < k)
                        then np_std (window prices i) else 0%float)).
  destruct (Loops.for_seq_invariant P (z_score_body prices) window_size
              (n - window_size)
              (zeros_like prices, zeros_like prices, zeros_like prices))
    as ([[a m] s] & Hrun & Hlen_a & Hlen_m & Hlen_s & Hall).
  - unfold P, zeros_like; simpl. rewrite !length_replicate.
    repeat split; try done; rewrite lookup_replicate_2 by done.
    + case_decide as Hk; [|done]. unfold Spec.flagged.
      destruct (prices !! i); [|done].
      by rewrite bool_decide_eq_false_2 by lia.
    + by rewrite decide_False by lia.
    + by rewrite decide_False by lia.
  - intros i [[a m] s] Hi (Hlen_a & Hlen_m & Hlen_s & Hall); simpl in *.
    destruct (lookup_lt_is_Some_2 prices i) as [p Hp]; [fold n; lia|].
    unfold AnomalyDetector.z_score_body.
    rewrite (z_score_locals_eq prices i p) by (done || lia). simpl.
    rewrite !Loops.setitem_lt by lia. simpl.
    eexists; split; [done|]. unfold P; simpl. rewrite !length_insert.
    repeat split; try done.
    + destruct (decide (i0 = i)) as [->|Hne].
      * rewrite list_lookup_insert_eq by lia. rewrite decide_True by lia.
        unfold Spec.flagged, Spec.exceeds. rewrite Hp.
        by rewrite bool_decide_eq_true_2 by lia.
      * rewrite list_lookup_insert_ne by done.
        destruct (Hall i0) as (-> & _); [done|].
        repeat case_decide; (done || lia).
    + destruct (decide (i0 = i)) as [->|Hne].
      * rewrite list_lookup_insert_eq by lia. by rewrite decide_True by lia.
      * rewrite list_lookup_insert_ne by done.
        destruct (Hall i0) as (_ & -> & _); [done|].
        repeat case_decide; (done || lia).
    + destruct (decide (i0 = i)) as [->|Hne].
      * rewrite list_lookup_insert_eq by lia. by rewrite decide_True by lia.
      * rewrite list_lookup_insert_ne by done.
        destruct (Hall i0) as (_ & _ & ->); [done|].
        repeat case_decide; (done || lia).
  - exists a, m, s. simpl in *. repeat split; try done.
    + destruct (Hall i) as (-> & _); [done|].
      case_decide as Hk; [done|]. unfold Spec.flagged.
      destruct (prices !! i); [|done].
      by rewrite bool_decide_eq_false_2 by lia.
    + destruct (Hall i) as (_ & -> & _); [done|].
      repeat case_decide; (done || lia).
    + destruct (Hall i) as (_ & _ & ->); [done|].
      repeat case_decide; (done || lia).
Qed.

(** The loop building [results], on the arrays of the z-score detector. *)
Lemma detect_results_zscore (data : price_frame)
    (anomalies means stds : list float) :
  (forall i, i < length data ->
     anomalies !! i = Some (float_of_bool (flagged (Close_values data) i)) /\
     means !! i = Some (if decide (window_size <= i)
                        then np_mean (window (Close_values data) i) else 0%float) /\
     stds !! i = Some (if decide (window_size <= i)
                       then np_std (window (Close_values data) i) else 0%float)) ->
  AnomalyDetector.detect_results "zscore" (index data) (Close_values data)
      (f64 anomalies) means stds =
    Ok (omap (flagged_record data) (seq 0 (length data))).
Proof.
  intros Hall. unfold AnomalyDetector.detect_results, range, Close_values.
  rewrite length_fmap, Nat.sub_0_r.
  edestruct (Loops.for_seq_invariant
               (fun k results => results = omap (flagged_record data) (seq 0 k)))
    as (rows & -> & ->); [done| |done].
  intros i results [_ Hi] ->; simpl in Hi.
  destruct (Hall i Hi) as (Ha & Hm & Hs).
  destruct (lookup_lt_is_Some_2 data i Hi) as [[t p] Hd].
  rewrite seq_S, omap_app. simpl.
  rewrite (Loops.getitem_Some _ _ _ Ha). simpl.
  rewrite Float64.float_of_bool_truthy.
  fold (Close_values data).
  destruct (flagged (Close_values data) i) eqn:Hf.
  - assert (window_size <= i) as Hw.
    { unfold Spec.flagged in Hf. destruct (_ !! i); [|done].
      apply andb_true_iff in Hf as [Hf _]. by apply bool_decide_eq_true in Hf. }
    rewrite decide_True in Hm, Hs by done.
    assert (flagged_record data i = Spec.record_of window_size data i) as ->.
    { unfold Spec.flagged_record. by rewrite Hf. }
    unfold Spec.record_of. rewrite Hd. simpl.
    unfold index. rewrite (Loops.getitem_Some (data.*1) i t)
      by (by rewrite list_lookup_fmap, Hd).
    simpl. rewrite (Loops.getitem_Some (Close_values data) i p)
      by (unfold Close_values; by rewrite list_lookup_fmap, Hd).
    simpl. rewrite (Loops.getitem_Some _ _ _ Hm), (Loops.getitem_Some _ _ _ Hs).
    simpl. eauto.
  - assert (flagged_record data i = None) as ->.
    { unfold Spec.flagged_record. by rewrite Hf. }
    rewrite app_nil_r. eauto.
Qed.

(** Nothing before the first full window is recorded. *)
Lemma flagged_record_before_window (data : price_frame) (i : nat) :
  i < window_size -> flagged_record data i = None.
Proof.
  intros Hi. unfold Spec.flagged_record, Spec.flagged.
  destruct (_ !! i); [|done]. by rewrite bool_decide_eq_false_2 by lia.
Qed.

Lemma flagged_records_before_window (data : price_frame) (k : nat) :
  k <= window_size -> omap (flagged_record data) (seq 0 k) = [].
Proof.
  induction k as [|k IH]; intros Hk; [done|].
  rewrite seq_S, omap_app, IH by lia. simpl.
  by rewrite flagged_record_before_window by lia.
Qed.

Lemma flagged_records_from_window (data : price_frame) :
  window_size <= length data ->
  omap (flagged_record data) (seq 0 (length data)) =
  omap (flagged_record data) (seq window_size (length data - window_size)).
Proof.
  intros Hlen.
  replace (length data) with (window_size + (length data - window_size)) at 1
    by lia.
  by rewrite seq_app, omap_app, flagged_records_before_window.
Qed.

(** What [detect] returns on the z-score path. *)
Lemma detect_zscore_eq (data : price_frame) (s : process) :
  detect data "zscore" s =
    (Ok (if decide (length data < window_size) then None
         else Some (omap (flagged_record data)
                      (seq window_size (length data - window_size)))), s).
Proof.
  unfold AnomalyDetector.detect. case_decide as Hlen; [done|].
  destruct (z_score_detection_arrays (Close_values data))
    as (a & m & sd & Hrun & _ & _ & _ & Hall).
  unfold Close_values in Hall at 1. rewrite length_fmap in Hall.
  rewrite decide_True by done.
  unfold mbind, M_bind, Py.bind, Py.lift, mret, M_ret, Py.ret.
  rewrite Hrun. simpl.
  rewrite (detect_results_zscore data a m sd Hall).
  by rewrite flagged_records_from_window by lia.
Qed.

(** C1.  For every frame and configuration (so in particular for
    [window_size >= 1] and [threshold > 0]), the parametric detector flags
    exactly the indices [i] with [window_size <= i <= len(prices) - 1] whose
    z-score against the trailing window [prices[i - window_size : i]] exceeds
    the threshold: [detect] returns without raising and without touching the
    process state; its rows are, in index order, the records of the flagged
    indices; a row is in the output exactly when it is the record of such an
    index, and it carries the mean and standard deviation of that window; the
    window has exactly [window_size] points, the ones before [i].  No index
    below [window_size] contributes a row, and unflagged points are absent. *)
Theorem detect_zscore_flags_exactly (data : price_frame) (s : process) :
  exists r,
    detect data "zscore" s = (Ok r, s) /\
    Spec.records r =
      omap (flagged_record data)
           (seq window_size (length data - window_size)) /\
    (forall rec, rec ∈ Spec.records r <->
       exists i t p,
         window_size <= i < length data /\
         data !! i = Some (t, p) /\
         Spec.exceeds threshold p
           (np_mean (window (Close_values data) i))
           (np_std (window (Close_values data) i)) = true /\
         rec = mkRow t p (np_mean (window (Close_values data) i))
                 (np_std (window (Close_values data) i)) "zscore" true) /\
    (forall i, window_size <= i < length data ->
       length (window (Close_values data) i) = window_size /\
       forall j, j < window_size ->
         window (Close_values data) i !! j =
         Close_values data !! (i - window_size + j)).
Proof.
  eexists. split; [apply detect_zscore_eq|].
  assert (Spec.records
            (if decide (length data < window_size) then None
             else Some (omap (flagged_record data)
                          (seq window_size (length data - window_size)))) =
          omap (flagged_record data)
            (seq window_size (length data - window_size))) as Hrec.
  { case_decide as Hlen; [|done].
    by replace (length data - window_size) with 0 by lia. }
  rewrite Hrec. split; [done|]. split.
  - intros rec. rewrite list_elem_of_omap. split.
    + intros (i & Hi & Hrow). apply elem_of_seq in Hi.
      unfold Spec.flagged_record, Spec.flagged, Spec.record_of in Hrow.
      unfold Close_values in Hrow at 1. rewrite list_lookup_fmap in Hrow.
      destruct (data !! i) as [[t p]|] eqn:Hd; simpl in Hrow; [|done].
      destruct (bool_decide (window_size <= i)); simpl in Hrow; [|done].
      destruct (Spec.exceeds _ _ _ _) eqn:Hex; [|done].
      exists i, t, p. repeat split; (done || lia || congruence).
    + intros (i & t & p & Hi & Hd & Hex & ->). exists i. split.
      * apply elem_of_seq. lia.
      * unfold Spec.flagged_record, Spec.flagged, Spec.record_of.
        unfold Close_values at 1. rewrite list_lookup_fmap, Hd. simpl.
        rewrite bool_decide_eq_true_2 by lia. by rewrite Hex.
  - intros i Hi. unfold Spec.trailing_window, Close_values. split.
    + apply Loops.trailing_length. rewrite length_fmap. lia.
    + intros j Hj. by apply Loops.trailing_lookup.
Qed.

(** C3.  When the standard deviation computed for the trailing window
    [prices[i - window_size : i]] of an evaluated index, [np.std(window)], is
    equal to zero ([std == 0]), the z-score is the constant [0] (the division
    is not evaluated), and point [i] is not flagged whatever its price: its
    entry of [anomalies] is [0] and it has no record.  The threshold is one
    that is not negative, as every positive threshold is.  The test is on the
    computed value: a window of constant prices whose computed deviation is
    not exactly zero is not covered. *)
Theorem zero_std_never_flags (data : price_frame) (i : nat) :
  PrimFloat.ltb threshold 0 = false ->
  window_size <= i < length data ->
  PrimFloat.eqb (np_std (slice (i - window_size) i (Close_values data))) 0
    = true ->
  z_score_locals (Close_values data) i =
    Ok (np_mean (slice (i - window_size) i (Close_values data)),
        np_std (slice (i - window_size) i (Close_values data)), 0%float) /\
  (exists anomalies means stds,
     z_score_detection (Close_values data) = Ok (anomalies, means, stds) /\
     anomalies !! i = Some 0%float /\
     truthy (f64 anomalies) i = Ok false) /\
  flagged_record data i = None.
Proof.
  intros Hthr Hi Hstd.
  assert (flagged (Close_values data) i = false) as Hflag.
  { unfold Spec.flagged. destruct (_ !! i); [|done].
    unfold Spec.exceeds, Spec.z_score, Spec.trailing_window.
    rewrite <- Loops.slice_trailing by lia. rewrite Hstd.
    change (PrimFloat.abs 0) with 0%float. rewrite Hthr. apply andb_false_r. }
  split; [|split].
  - unfold AnomalyDetector.z_score_locals. by rewrite Hstd.
  - destruct (z_score_detection_arrays (Close_values data))
      as (a & m & sd & Hrun & _ & _ & _ & Hall).
    destruct (Hall i) as (Ha & _).
    { unfold Close_values. rewrite length_fmap. lia. }
    rewrite Hflag in Ha. exists a, m, sd. repeat split; [done..|].
    simpl. by rewrite (Loops.getitem_Some _ _ _ Ha).
  - unfold Spec.flagged_record. by rewrite Hflag.
Qed.

(** The loop building [results] on an array of zeros appends nothing. *)
Lemma detect_results_zeros (method : string) (timestamps : list Z)
    (prices means stds : list float) :
  AnomalyDetector.detect_results method timestamps prices
    (f64 (zeros_like prices)) means stds = Ok [].
Proof.
  unfold AnomalyDetector.detect_results, range. rewrite Nat.sub_0_r.
  edestruct (Loops.for_seq_invariant (fun (_ : nat) (results : list row) =>
               results = [])) as (rows & -> & ->); [done| |done].
  intros i results [_ Hi] ->. simpl in *.
  unfold zeros_like, getitem. rewrite lookup_replicate_2 by done. simpl. eauto.
Qed.

(** C10.  On a frame of at least [window_size] rows, a method other than
    ['zscore'] and ['isolation'] makes [detect] raise a [ValueError]; the
    process state, and with it the model cache, is left as it was, and no
    record is produced. *)
Theorem detect_unknown_method_raises (data : price_frame) (method : string)
    (s : process) :
  window_size <= length data ->
  method <> "zscore" ->
  method <> "isolation" ->
  detect data method s = (Raise (ValueError ("Unknown method: " +:+ method)), s).
Proof.
  intros Hlen Hz Hi. unfold AnomalyDetector.detect.
  rewrite decide_False by lia. by rewrite !decide_False by done.
Qed.

End Facts.
End ZScore.

(** ** The model cache of the isolation-forest detector *)

Module Isolation.
Section Facts.

Context {NP : Numpy} {SK : Sklearn}.

Variable window_size : nat.
Variable threshold : float.

Local Abbreviation isolation_forest_detection :=
  (AnomalyDetector.isolation_forest_detection window_size).
Local Abbreviation detect := (AnomalyDetector.detect window_size threshold).
Local Abbreviation step := (Spec.step window_size threshold).

Lemma lookup_model_congr (k1 k2 : list float)
    (ms : list (list float * IsolationForest)) :
  tuple_eqb k1 k2 = true -> lookup_model k1 ms = lookup_model k2 ms.
Proof.
  intros H12. induction ms as [|[k m] ms IH]; simpl; [done|].
  by rewrite (Float64.tuple_eqb_congr k k1 k2 H12), IH.
Qed.

Lemma lookup_model_app_Some (key : list float) (m : IsolationForest)
    (ms ms' : list (list float * IsolationForest)) :
  lookup_model key ms = Some m -> lookup_model key (ms ++ ms') = Some m.
Proof.
  induction ms as [|[k m0] ms IH]; simpl; [done|].
  destruct (tuple_eqb k key); auto.
Qed.

Lemma lookup_model_app_None (key k' : list float) (m' : IsolationForest)
    (ms : list (list float * IsolationForest)) :
  lookup_model key ms = None ->
  lookup_model key (ms ++ [(k', m')]) = if tuple_eqb k' key then Some m' else None.
Proof.
  induction ms as [|[k m0] ms IH]; simpl; [done|].
  destruct (tuple_eqb k key); [done|auto].
Qed.

(** A stored key is equal to the key that finds it, so the key has no NaN. *)
Lemma lookup_model_Some_refl (key : list float) (m : IsolationForest)
    (ms : list (list float * IsolationForest)) :
  lookup_model key ms = Some m -> tuple_eqb key key = true.
Proof.
  induction ms as [|[k m0] ms IH]; simpl; [done|].
  destruct (tuple_eqb k key) eqn:Hk; [|done]. intros _.
  eapply Float64.tuple_eqb_trans; [by apply Float64.tuple_eqb_sym|done].
Qed.

Lemma insert_last {A} (l : list A) (x y : A) :
  <[length l := x]> (l ++ [y]) = l ++ [x].
Proof. rewrite insert_app_r_alt by done. by rewrite Nat.sub_diag. Qed.

(** [isolation_forest_detection], case by case. *)
Lemma isolation_forest_detection_eq (prices : list float) (s : process) :
  isolation_forest_detection prices s =
    if decide (length prices < window_size * 2)
    then (Ok (f64 (zeros_like prices)), s)
    else
      let key := take window_size prices in
      match lookup_model key (models s) with
      | Some m => (Spec.predicted_by m prices, s)
      | None =>
          let m := mkForest 0.05%float (sk_fit 0.05%float key (env s)).1 in
          let s' := mkProcess (models s ++ [(key, m)]) (history s)
                      (sk_fit 0.05%float key (env s)).2
                      (fit_calls s ++ [(0.05%float, key)]) (output s) in
          match estimators_ m with
          | Some _ => (Spec.predicted_by m prices, s')
          | None => (Raise LibraryError, s')
          end
      end.
Proof.
  unfold AnomalyDetector.isolation_forest_detection.
  case_decide as Hlen; [done|]. cbv zeta.
  unfold mbind, M_bind, Py.bind, Py.get, Py.modify, Py.lift, mret, M_ret, Py.ret,
    Spec.predicted_by.
  destruct (lookup_model _ (models s)) as [m|] eqn:Hlook.
  - destruct (IsolationForest_predict m prices); done.
  - unfold IsolationForest_fit, set_models. simpl.
    destruct (sk_fit _ _ (env s)) as [[est|] e']; simpl; [|done].
    rewrite insert_last.
    destruct (IsolationForest_predict _ prices); done.
Qed.

Global Instance cache_kept_refl (key : list float) :
  Reflexive (Spec.cache_kept key).
Proof. by intros s m Hm. Qed.

Global Instance cache_kept_trans (key : list float) :
  Transitive (Spec.cache_kept key).
Proof.
  intros s1 s2 s3 H12 H23 m Hm.
  destruct (H12 m Hm) as [Hm2 Hf2]. destruct (H23 m Hm2) as [Hm3 Hf3].
  split; [done|congruence].
Qed.

Lemma cache_kept_same (key : list float) (s s' : process) :
  models s' = models s -> fit_calls s' = fit_calls s -> Spec.cache_kept key s s'.
Proof. intros Hm Hf m Hlook. unfold Spec.fits_of. by rewrite Hm, Hf. Qed.

Section Preserves.

Context (R : process -> process -> Prop) `{!Reflexive R} `{!Transitive R}.

Lemma preserves_ret {A} (a : A) : preserves R (mret a).
Proof. intros s. simpl. reflexivity. Qed.

Lemma preserves_raise {A} (e : exn) : preserves R (@Py.raise process A e).
Proof. intros s. simpl. reflexivity. Qed.

Lemma preserves_lift {A} (r : result A) : preserves R (Py.lift r).
Proof. intros s. simpl. reflexivity. Qed.

Lemma preserves_get : preserves R Py.get.
Proof. intros s. simpl. reflexivity. Qed.

Lemma preserves_modify (f : process -> process) :
  (forall s, R s (f s)) -> preserves R (Py.modify f).
Proof. intros Hf s. apply Hf. Qed.

Lemma preserves_bind {A B} (m : M process A) (k : A -> M process B) :
  preserves R m -> (forall a, preserves R (k a)) -> preserves R (m ≫= k).
Proof.
  intros Hm Hk s. unfold mbind, M_bind, Py.bind.
  specialize (Hm s). destruct (m s) as [[a|e] s1]; simpl in *; [|done].
  etrans; [exact Hm|apply Hk].
Qed.

End Preserves.

(** A call of the detector keeps every cached model, and fits none again. *)
Lemma isolation_keeps_cache (key prices : list float) :
  preserves (Spec.cache_kept key) (isolation_forest_detection prices).
Proof.
  intros s. rewrite isolation_forest_detection_eq.
  case_decide as Hlen; [reflexivity|]. cbv zeta.
  destruct (lookup_model (take window_size prices) (models s)) as [m'|] eqn:Hown;
    [reflexivity|].
  assert (Spec.cache_kept key s
    (mkProcess
       (models s ++ [(take window_size prices,
          mkForest 0.05%float
            (sk_fit 0.05%float (take window_size prices) (env s)).1)])
       (history s) (sk_fit 0.05%float (take window_size prices) (env s)).2
       (fit_calls s ++ [(0.05%float, take window_size prices)]) (output s)))
    as Hkept.
  { intros m Hm. simpl. split; [by apply lookup_model_app_Some|].
    unfold Spec.fits_of. simpl. rewrite List.filter_app. simpl.
    destruct (tuple_eqb (take window_size prices) key) eqn:Hk.
    - by rewrite (lookup_model_congr _ _ _ Hk), Hm in Hown.
    - by rewrite app_nil_r. }
  by destruct (estimators_ _).
Qed.

Lemma detect_keeps_cache (key : list float) (data : price_frame)
    (method : string) :
  preserves (Spec.cache_kept key) (detect data method).
Proof.
  unfold AnomalyDetector.detect.
  case_decide; [by apply preserves_ret|].
  apply preserves_bind; try apply _.
  - repeat case_decide.
    + apply preserves_bind; try apply _; [by apply preserves_lift|].
      intros [[a m] sd]. by apply preserves_ret.
    + apply preserves_bind; try apply _; [apply isolation_keeps_cache|].
      intros a. by apply preserves_ret.
    + by apply preserves_raise.
  - intros [[a m] sd]. apply preserves_bind; try apply _;
      [by apply preserves_lift|]. intros rows. by apply preserves_ret.
Qed.

Lemma emit_keeps_cache (key : list float) (e : event) (s : process) :
  Spec.cache_kept key s (emit e s).
Proof. by apply cache_kept_same. Qed.

Lemma set_history_keeps_cache (key : list float)
    (f : gmap string (list row) -> gmap string (list row)) (s : process) :
  Spec.cache_kept key s (set_history f s).
Proof. by apply cache_kept_same. Qed.

Lemma history_of_keeps_cache (key : list float) (ticker : string) :
  preserves (Spec.cache_kept key) (StockMonitor.history_of ticker).
Proof.
  apply preserves_bind; try apply _; [by apply preserves_get|].
  intros s. destruct (history s !! ticker);
    [by apply preserves_ret|by apply preserves_raise].
Qed.

Lemma update_history_keeps_cache (key : list float) (ticker : string)
    (new_data : option (list row)) :
  preserves (Spec.cache_kept key) (StockMonitor.update_history ticker new_data).
Proof.
  destruct new_data as [[|r rs]|]; simpl; try by apply preserves_ret.
  apply preserves_bind; try apply _; [apply history_of_keeps_cache|].
  intros old. apply preserves_modify. apply set_history_keeps_cache.
Qed.

Lemma process_alerts_keeps_cache (key : list float) (ticker : string)
    (results : option (list row)) :
  preserves (Spec.cache_kept key) (StockMonitor.process_alerts ticker results).
Proof.
  destruct results as [[|r rs]|]; simpl; try by apply preserves_ret.
  apply preserves_bind; try apply _;
    [apply preserves_modify, emit_keeps_cache|]. intros _.
  apply preserves_bind; try apply _; [apply history_of_keeps_cache|].
  intros h. apply preserves_modify, emit_keeps_cache.
Qed.

Lemma monitor_try_keeps_cache (key : list float) (ticker : string)
    (fetched : option price_frame) :
  preserves (Spec.cache_kept key)
    (StockMonitor.monitor_try window_size threshold ticker fetched).
Proof.
  unfold StockMonitor.monitor_try.
  apply preserves_bind; try apply _.
  - destruct fetched as [[|d data]|]; simpl;
      try (apply preserves_bind; try apply _;
           [apply preserves_modify, emit_keeps_cache|intros _]);
      by apply preserves_ret.
  - intros [|]; destruct fetched as [data|]; try by apply preserves_ret.
    apply preserves_bind; try apply _; [apply detect_keeps_cache|]. intros z.
    apply preserves_bind; try apply _; [apply detect_keeps_cache|]. intros i.
    apply preserves_bind; try apply _; [apply update_history_keeps_cache|].
    intros _.
    apply preserves_bind; try apply _; [apply update_history_keeps_cache|].
    intros _.
    apply preserves_bind; try apply _; [apply process_alerts_keeps_cache|].
    intros _. apply process_alerts_keeps_cache.
Qed.

Lemma step_keeps_cache (key : list float) (s s' : process) :
  step s s' -> Spec.cache_kept key s s'.
Proof.
  intros [prices s0|data method s0|ticker fetched s0].
  - apply isolation_keeps_cache.
  - apply detect_keeps_cache.
  - unfold StockMonitor.monitor_ticker.
    pose proof (monitor_try_keeps_cache key ticker fetched s0) as H.
    destruct (StockMonitor.monitor_try _ _ _ _ s0) as [[u|e] s1]; simpl in H;
      [done|]. etrans; [exact H|apply emit_keeps_cache].
Qed.

Lemma steps_keep_cache (key : list float) (s s' : process) :
  rtc step s s' -> Spec.cache_kept key s s'.
Proof.
  induction 1 as [|s1 s2 s3 H12 _ IH]; [reflexivity|].
  etrans; [by apply step_keeps_cache|done].
Qed.

(** C4.  Take two calls of the density detector, on inputs long enough to be
    evaluated ([2 * window_size] points) whose leading [window_size] prices
    are equal as tuples, with any operations of the process in between.  After
    the first call a model [m] is cached under the key.  When none was cached
    before, that call made exactly one call of [fit], on the leading
    [window_size] prices with contamination 0.05, and [m] is its outcome; when
    one was cached, it made none.  The second call finds [m] again, leaves
    the process state as it is (no call of [fit], no change of the cache) and
    returns the labels [m] predicts for its entire input.  Over the whole run
    at most one call of [fit] was made on that key. *)
Theorem isolation_model_fitted_once (p1 p2 : list float) (s0 s2 : process) :
  let key := take window_size p1 in
  let s1 := (isolation_forest_detection p1 s0).2 in
  window_size * 2 <= length p1 ->
  window_size * 2 <= length p2 ->
  tuple_eqb (take window_size p1) (take window_size p2) = true ->
  rtc step s1 s2 ->
  exists m,
    lookup_model key (models s1) = Some m /\
    (lookup_model key (models s0) = None ->
       m = mkForest 0.05%float (sk_fit 0.05%float key (env s0)).1 /\
       fit_calls s1 = fit_calls s0 ++ [(0.05%float, key)]) /\
    (forall m0, lookup_model key (models s0) = Some m0 ->
       m = m0 /\ fit_calls s1 = fit_calls s0) /\
    isolation_forest_detection p2 s2 = (Spec.predicted_by m p2, s2) /\
    length (Spec.fits_of key s2) <= S (length (Spec.fits_of key s0)).
Proof.
  intros key s1 Hlen1 Hlen2 Hkeys Hsteps.
  assert (tuple_eqb key key = true) as Hrefl.
  { eapply Float64.tuple_eqb_trans; [exact Hkeys|].
    by apply Float64.tuple_eqb_sym. }
  assert (exists m,
    lookup_model key (models s1) = Some m /\
    (lookup_model key (models s0) = None ->
       m = mkForest 0.05%float (sk_fit 0.05%float key (env s0)).1 /\
       fit_calls s1 = fit_calls s0 ++ [(0.05%float, key)]) /\
    (forall m0, lookup_model key (models s0) = Some m0 ->
       m = m0 /\ fit_calls s1 = fit_calls s0) /\
    length (Spec.fits_of key s1) <= S (length (Spec.fits_of key s0)))
    as (m & Hm1 & Hnew & Hold & Hcount).
  { subst s1. rewrite isolation_forest_detection_eq.
    rewrite decide_False by lia. cbv zeta. fold key.
    destruct (lookup_model key (models s0)) as [m0|] eqn:Hlook0.
    - exists m0. simpl. split; [done|]. split; [done|].
      split; [|lia]. intros m1 [= ->]. done.
    - eexists. split; [|split; [|split]].
      + instantiate (1 := mkForest 0.05%float
                             (sk_fit 0.05%float key (env s0)).1).
        destruct (sk_fit _ key (env s0)) as [[est|] e']; simpl;
          by rewrite (lookup_model_app_None _ _ _ _ Hlook0), Hrefl.
      + intros _. by destruct (sk_fit _ key (env s0)) as [[est|] e'].
      + done.
      + unfold Spec.fits_of.
        destruct (sk_fit _ key (env s0)) as [[est|] e']; simpl;
          rewrite List.filter_app, length_app; simpl; rewrite Hrefl; simpl; lia. }
  destruct (steps_keep_cache key s1 s2 Hsteps m Hm1) as [Hm2 Hfits].
  exists m. split; [done|]. split; [done|]. split; [done|]. split.
  - rewrite isolation_forest_detection_eq. rewrite decide_False by lia.
    cbv zeta.
    rewrite <- (lookup_model_congr _ _ (models s2) Hkeys). fold key.
    by rewrite Hm2.
  - by rewrite Hfits.
Qed.

(** With fewer than [2 * window_size] points the density detector returns an
    array of zeros at once: no model is looked up or fitted, and the process
    state is untouched. *)
Lemma isolation_short_input (prices : list float) (s : process) :
  length prices < window_size * 2 ->
  isolation_forest_detection prices s = (Ok (f64 (zeros_like prices)), s).
Proof. intros H. rewrite isolation_forest_detection_eq. by rewrite decide_True. Qed.

(** C5.  On the parametric path with fewer than [window_size] points, and on
    the density path with fewer than [2 * window_size] points, [detect]
    returns without raising, leaves the process state as it was, and its
    result holds no anomaly record. *)
Theorem detect_insufficient_data (data : price_frame) (method : string)
    (s : process) :
  (method = "zscore" /\ length data < window_size) \/
  (method = "isolation" /\ length data < window_size * 2) ->
  exists r, detect data method s = (Ok r, s) /\ Spec.records r = [].
Proof.
  intros [[-> Hlen]|[-> Hlen]]; unfold AnomalyDetector.detect.
  - exists None. by rewrite decide_True.
  - case_decide as Hw; [by exists None|]. exists (Some []).
    rewrite decide_False by done. rewrite decide_True by done.
    unfold mbind, M_bind, Py.bind, mret, M_ret, Py.ret, Py.lift.
    rewrite isolation_short_input
      by (unfold Close_values; by rewrite length_fmap).
    by rewrite ZScore.detect_results_zeros.
Qed.

End Facts.
End Isolation.

(** ** The history store *)

Module History.

Lemma drop_duplicates_from_times (seen : list Z) (df : list row) (t : Z) :
  t ∈ Time <$> drop_duplicates_from seen df <-> (t ∉ seen) /\ t ∈ Time <$> df.
Proof.
  revert seen. induction df as [|r df IH]; intros seen; simpl.
  - rewrite elem_of_nil. tauto.
  - case_decide as Hseen; simpl; rewrite ?elem_of_cons, IH, ?elem_of_cons.
    + split; [tauto|]. intros [Hn [->|Ht]]; tauto.
    + split.
      * intros [->|[Hn Ht]]; tauto.
      * intros [Hn [->|Ht]]; [tauto|].
        destruct (decide (t = Time r)); tauto.
Qed.

Lemma drop_duplicates_from_NoDup (seen : list Z) (df : list row) :
  NoDup (Time <$> drop_duplicates_from seen df).
Proof.
  revert seen. induction df as [|r df IH]; intros seen; simpl; [constructor|].
  case_decide as Hseen; [apply IH|]. simpl. constructor; [|apply IH].
  rewrite drop_duplicates_from_times, elem_of_cons. tauto.
Qed.

(** Only the set of the timestamps seen matters. *)
Lemma drop_duplicates_from_ext (seen seen' : list Z) (df : list row) :
  (forall t, t ∈ seen <-> t ∈ seen') ->
  drop_duplicates_from seen df = drop_duplicates_from seen' df.
Proof.
  revert seen seen'. induction df as [|r df IH]; intros seen seen' Hext; simpl;
    [done|].
  destruct (decide (Time r ∈ seen)) as [Hin|Hnot].
  - rewrite decide_True by (by apply Hext). by apply IH.
  - rewrite decide_False by (by rewrite <- Hext). f_equal. apply IH.
    intros t. rewrite !elem_of_cons, Hext. tauto.
Qed.

Lemma drop_duplicates_from_app (seen : list Z) (l1 l2 : list row) :
  drop_duplicates_from seen (l1 ++ l2) =
  drop_duplicates_from seen l1 ++
  drop_duplicates_from ((Time <$> l1) ++ seen) l2.
Proof.
  revert seen. induction l1 as [|r l1 IH]; intros seen; simpl; [done|].
  case_decide as Hseen.
  - rewrite IH. f_equal. apply drop_duplicates_from_ext.
    intros t. rewrite elem_of_cons, !elem_of_app.
    split; [tauto|]. intros [->|[?|?]]; tauto.
  - simpl. rewrite IH. do 2 f_equal. apply drop_duplicates_from_ext.
    intros t. rewrite !elem_of_app, !elem_of_cons, elem_of_app. tauto.
Qed.

(** A frame without repeated timestamps, none of them seen, is kept whole. *)
Lemma drop_duplicates_from_id (seen : list Z) (df : list row) :
  NoDup (Time <$> df) -> (forall t, t ∈ Time <$> df -> t ∉ seen) ->
  drop_duplicates_from seen df = df.
Proof.
  revert seen. induction df as [|r df IH]; intros seen Hnd Hfresh; simpl; [done|].
  rewrite fmap_cons, NoDup_cons in Hnd. destruct Hnd as [Hr Hnd].
  rewrite decide_False by (apply Hfresh; simpl; apply elem_of_cons; tauto).
  f_equal. apply IH; [done|]. intros t Ht. rewrite elem_of_cons.
  intros [->|Hs]; [done|]. eapply Hfresh; [|done]. simpl.
  apply elem_of_cons. tauto.
Qed.

(** A frame whose timestamps were all seen is dropped whole. *)
Lemma drop_duplicates_from_nil (seen : list Z) (df : list row) :
  (forall t, t ∈ Time <$> df -> t ∈ seen) -> drop_duplicates_from seen df = [].
Proof.
  induction df as [|r df IH]; intros Hseen; simpl; [done|].
  rewrite decide_True by (apply Hseen; simpl; apply elem_of_cons; tauto).
  apply IH. intros t Ht. apply Hseen. simpl. apply elem_of_cons. tauto.
Qed.

(** Every kept row is the first of the frame with its timestamp. *)
Lemma drop_duplicates_from_first (seen : list Z) (df : list row) (r : row) :
  r ∈ drop_duplicates_from seen df ->
  Spec.first_with_time (Time r) df = Some r.
Proof.
  unfold Spec.first_with_time.
  revert seen. induction df as [|r0 df IH]; intros seen; simpl;
    [by rewrite elem_of_nil|].
  case_decide as Hseen.
  - intros Hr. rewrite bool_decide_eq_false_2; [by eapply IH|].
    intros Heq. assert (Time r ∈ Time <$> drop_duplicates_from seen df) as Ht
      by (by apply list_elem_of_fmap_2).
    apply drop_duplicates_from_times in Ht. rewrite <- Heq in Ht. tauto.
  - rewrite elem_of_cons. intros [->|Hr].
    + by rewrite bool_decide_eq_true_2.
    + rewrite bool_decide_eq_false_2; [by eapply IH|].
      intros Heq.
      assert (Time r ∈ Time <$> drop_duplicates_from (Time r0 :: seen) df)
        as Ht by (by apply list_elem_of_fmap_2).
      apply drop_duplicates_from_times in Ht. rewrite elem_of_cons in Ht.
      intuition congruence.
Qed.

(** Stored rows stay in place; unseen timestamps are appended in batch order. *)
Lemma drop_duplicates_stored (old new : list row) :
  NoDup (Time <$> old) ->
  drop_duplicates (old ++ new) = old ++ drop_duplicates_from (Time <$> old) new.
Proof.
  intros Hnd. unfold drop_duplicates. rewrite drop_duplicates_from_app.
  rewrite drop_duplicates_from_id; [|done|intros t _; apply not_elem_of_nil].
  by rewrite app_nil_r.
Qed.

(** Dropping duplicates early changes nothing of the final frame. *)
Lemma drop_duplicates_absorb (l more : list row) :
  drop_duplicates (drop_duplicates l ++ more) = drop_duplicates (l ++ more).
Proof.
  unfold drop_duplicates at 1 3. rewrite !drop_duplicates_from_app.
  rewrite (drop_duplicates_from_id [] (drop_duplicates l));
    [|apply drop_duplicates_from_NoDup|intros t _; apply not_elem_of_nil].
  f_equal. apply drop_duplicates_from_ext. intros t.
  rewrite !app_nil_r. unfold drop_duplicates.
  rewrite drop_duplicates_from_times.
  split; [tauto|]. split; [apply not_elem_of_nil|done].
Qed.

(** Merging a batch a second time changes nothing. *)
Lemma drop_duplicates_again (old new : list row) :
  drop_duplicates (drop_duplicates (old ++ new) ++ new) =
  drop_duplicates (old ++ new).
Proof.
  unfold drop_duplicates at 1. rewrite drop_duplicates_from_app.
  rewrite drop_duplicates_from_id;
    [|apply drop_duplicates_from_NoDup|intros t _; apply not_elem_of_nil].
  rewrite drop_duplicates_from_nil; [by rewrite app_nil_r|].
  intros t Ht. rewrite app_nil_r. unfold drop_duplicates.
  rewrite drop_duplicates_from_times, fmap_app, elem_of_app.
  split; [apply not_elem_of_nil|tauto].
Qed.

Lemma merged_first_seen_holds (old : list row) (new_data : option (list row)) :
  NoDup (Time <$> old) ->
  Spec.merged_first_seen old (Spec.records new_data) (Spec.merged old new_data).
Proof.
  intros Hnd.
  assert (Spec.merged old new_data = drop_duplicates (old ++ Spec.records new_data))
    as ->.
  { destruct new_data as [[|r rs]|]; simpl; try done;
      rewrite app_nil_r; unfold drop_duplicates;
      (rewrite drop_duplicates_from_id;
         [done|done|intros t _; apply not_elem_of_nil]). }
  split; [|split; [|split]].
  - intros t. unfold drop_duplicates.
    rewrite drop_duplicates_from_times, fmap_app, elem_of_app.
    split; [tauto|]. split; [apply not_elem_of_nil|done].
  - apply drop_duplicates_from_NoDup.
  - intros r. apply drop_duplicates_from_first.
  - by apply drop_duplicates_stored.
Qed.

End History.

(** ** [update_history] *)

Module Store.
Section Facts.

Context {SK : Sklearn}.

Local Abbreviation update_history := StockMonitor.update_history.

Lemma history_of_found (ticker : string) (s : process) (old : list row) :
  history s !! ticker = Some old -> StockMonitor.history_of ticker s = (Ok old, s).
Proof.
  intros H. unfold StockMonitor.history_of, mbind, M_bind, Py.bind, Py.get.
  by rewrite H.
Qed.

(** What a call of [update_history] does to a ticker that has a frame. *)
Lemma update_history_run (ticker : string) (new_data : option (list row))
    (s : process) (old : list row) :
  history s !! ticker = Some old ->
  exists s',
    update_history ticker new_data s = (Ok tt, s') /\
    history s' = <[ticker := Spec.merged old new_data]> (history s) /\
    models s' = models s /\ env s' = env s /\ fit_calls s' = fit_calls s /\
    output s' = output s.
Proof.
  intros Hold. destruct new_data as [[|r rs]|]; simpl.
  1, 3: exists s; by rewrite insert_id.
  unfold mbind, M_bind, Py.bind. rewrite (history_of_found _ _ _ Hold).
  eexists. split; [done|]. done.
Qed.

(** C2, as the code has it.  After a call of [update_history] on a ticker
    whose stored frame has no repeated timestamp, the stored frame holds
    exactly the union of the timestamps stored and given, each once, with the
    row seen first; stored rows keep their place and the rows of unseen
    timestamps follow in the order of the batch (the frame is not sorted
    again).  The frames of the other tickers are untouched. *)
Theorem update_history_keeps_first_seen (ticker : string)
    (new_data : option (list row)) (s : process) (old : list row) :
  history s !! ticker = Some old ->
  NoDup (Time <$> old) ->
  exists s',
    update_history ticker new_data s = (Ok tt, s') /\
    history s' !! ticker = Some (Spec.merged old new_data) /\
    Spec.merged_first_seen old (Spec.records new_data)
      (Spec.merged old new_data) /\
    forall other, other <> ticker -> history s' !! other = history s !! other.
Proof.
  intros Hold Hnd.
  destruct (update_history_run ticker new_data s old Hold)
    as (s' & Hrun & Hhist & _).
  exists s'. split; [done|]. rewrite Hhist. split; [by rewrite lookup_insert_eq|].
  split; [by apply History.merged_first_seen_holds|].
  intros other Hne. by rewrite lookup_insert_ne.
Qed.

(** Over any run of calls, the stored frame is the rows stored at the start
    followed by the rows of all the batches so far, in the order given, each
    timestamp kept at its first appearance. *)
Lemma updates_from_stored (ticker : string)
    (batches : list (option (list row))) (s : process) (old : list row) :
  history s !! ticker = Some old ->
  NoDup (Time <$> old) ->
  history (foldl (fun s b => (update_history ticker b s).2) s batches) !! ticker
    = Some (drop_duplicates (old ++ concat (Spec.records <$> batches))).
Proof.
  revert s old. induction batches as [|b batches IH]; intros s old Hold Hnd; simpl.
  - rewrite app_nil_r, Hold. f_equal. unfold drop_duplicates.
    rewrite History.drop_duplicates_from_id; [done|done|].
    intros t _. apply not_elem_of_nil.
  - destruct (update_history_run ticker b s old Hold) as (s' & Hrun & Hhist & _).
    rewrite Hrun. simpl.
    destruct (History.merged_first_seen_holds old b Hnd)
      as (_ & Hnd' & _ & Hmerged).
    rewrite (IH s' (Spec.merged old b));
      [|by rewrite Hhist, lookup_insert_eq|done].
    f_equal. rewrite Hmerged.
    rewrite <- History.drop_duplicates_stored by done.
    by rewrite History.drop_duplicates_absorb, <- app_assoc.
Qed.

(** C8.  Merging the same batch twice is merging it once: the two runs end
    with the same outcome in the same process state, so the stored frame is
    the same in content and order.  This holds for every batch, with or
    without repeated timestamps. *)
Theorem update_history_idempotent (ticker : string)
    (new_data : option (list row)) (s : process) :
  (update_history ticker new_data ≫= fun _ => update_history ticker new_data) s
  = update_history ticker new_data s.
Proof.
  unfold mbind at 1, M_bind, Py.bind.
  destruct new_data as [[|r rs]|]; simpl; [done| |done].
  unfold mbind, M_bind, Py.bind.
  destruct (history s !! ticker) as [old|] eqn:Hold.
  - rewrite (history_of_found _ _ _ Hold). simpl.
    rewrite (history_of_found ticker _ (drop_duplicates (old ++ r :: rs)))
      by (simpl; by rewrite lookup_insert_eq).
    unfold Py.modify, set_history. simpl.
    by rewrite History.drop_duplicates_again, insert_insert_eq.
  - unfold StockMonitor.history_of, mbind, M_bind, Py.bind, Py.get.
    by rewrite Hold.
Qed.

End Facts.
End Store.

(** ** The two implementations of the rolling z-score *)

Module Duplicate.
Section Facts.

Context {NP : Numpy}.

Variable window_size : nat.
Variable threshold : float.

Local Abbreviation window := (Spec.trailing_window window_size).

(** The rows the standalone loop builds, one per evaluated index. *)
Lemma detect_anomalies_loop_points (data : price_frame) :
  exists points,
    Standalone.detect_anomalies_loop window_size threshold data = Ok points /\
    length points = length data - window_size /\
    forall i t p, window_size <= i < length data -> data !! i = Some (t, p) ->
      points !! (i - window_size) =
        Some (Standalone.mkPoint p
                (np_mean (window (Close_values data) i))
                (np_std (window (Close_values data) i))
                (Spec.z_score p (np_mean (window (Close_values data) i))
                   (np_std (window (Close_values data) i)))
                (Spec.exceeds threshold p
                   (np_mean (window (Close_values data) i))
                   (np_std (window (Close_values data) i)))
                t).
Proof.
  unfold Standalone.detect_anomalies_loop, range.
  assert (length (Close_values data) = length data) as Hlen
    by (unfold Close_values; apply length_fmap).
  rewrite Hlen.
  destruct (decide (window_size <= length data)) as [Hw|Hw]; cycle 1.
  { replace (length data - window_size) with 0 by lia. simpl.
    exists []. split; [done|]. split; [done|]. intros; lia. }
  edestruct (Loops.for_seq_invariant
    (fun k (points : list Standalone.data_point) =>
       length points = k - window_size /\
       forall i t p, window_size <= i < k -> data !! i = Some (t, p) ->
         points !! (i - window_size) =
           Some (Standalone.mkPoint p
                   (np_mean (window (Close_values data) i))
                   (np_std (window (Close_values data) i))
                   (Spec.z_score p (np_mean (window (Close_values data) i))
                      (np_std (window (Close_values data) i)))
                   (Spec.exceeds threshold p
                      (np_mean (window (Close_values data) i))
                      (np_std (window (Close_values data) i)))
                   t))
    (Standalone.detect_anomalies_body window_size threshold (index data)
       (Close_values data))
    window_size (length data - window_size) [])
    as (points & Hrun & Hlenp & Hall).
  - split; [simpl; lia|]. intros; lia.
  - intros i points Hi [Hlenp Hall].
    destruct (lookup_lt_is_Some_2 data i) as [[t p] Hd]; [lia|].
    unfold Standalone.detect_anomalies_body.
    rewrite (Loops.getitem_Some (Close_values data) i p)
      by (unfold Close_values; by rewrite list_lookup_fmap, Hd).
    simpl. unfold index.
    rewrite (Loops.getitem_Some (data.*1) i t)
      by (by rewrite list_lookup_fmap, Hd).
    simpl. eexists. split; [done|]. rewrite length_app. simpl.
    split; [lia|]. intros j tj pj Hj Hdj.
    destruct (decide (j = i)) as [->|Hne].
    + rewrite lookup_app_r by lia.
      replace (i - window_size - length points) with 0 by lia. simpl.
      rewrite Hd in Hdj. injection Hdj as <- <-.
      rewrite Loops.slice_trailing by lia. done.
    + rewrite lookup_app_l by lia. apply Hall; [lia|done].
  - exists points. split; [exact Hrun|].
    replace (window_size + (length data - window_size)) with (length data)
      in * by lia.
    done.
Qed.

(** C9.  On every frame, with the same window size and threshold, the loop
    of [AnomalyDetector.z_score_detection] and the per-index loop of the
    standalone [StockMonitor.detect_anomalies] both run to their end, evaluate
    the same indices ([window_size] to [len - 1]), and at each of them compute
    the same mean, standard deviation and z-score and take the same decision;
    below [window_size] the detector's [anomalies] entry is false and the
    standalone loop has no row. *)
Theorem zscore_loops_agree (data : price_frame) :
  exists anomalies means stds points,
    AnomalyDetector.z_score_detection window_size threshold (Close_values data)
      = Ok (anomalies, means, stds) /\
    Standalone.detect_anomalies_loop window_size threshold data = Ok points /\
    length points = length data - window_size /\
    (forall i, i < window_size -> i < length data ->
       truthy (f64 anomalies) i = Ok false) /\
    (forall i, window_size <= i < length data ->
       exists pt,
         points !! (i - window_size) = Some pt /\
         AnomalyDetector.z_score_locals window_size (Close_values data) i =
           Ok (Standalone.pMean pt, Standalone.pStd pt, Standalone.pZScore pt) /\
         means !! i = Some (Standalone.pMean pt) /\
         stds !! i = Some (Standalone.pStd pt) /\
         truthy (f64 anomalies) i = Ok (Standalone.pAnomaly pt)).
Proof.
  destruct (ZScore.z_score_detection_arrays window_size threshold
              (Close_values data)) as (a & m & sd & Hrun & _ & _ & _ & Hall).
  destruct (detect_anomalies_loop_points data) as (points & Hloop & Hlen & Hpts).
  assert (length (Close_values data) = length data) as Hlenp
    by (unfold Close_values; apply length_fmap).
  rewrite Hlenp in Hall.
  exists a, m, sd, points. split; [done|]. split; [done|]. split; [done|]. split.
  - intros i Hi Hl. destruct (Hall i Hl) as (Ha & _).
    simpl. rewrite (Loops.getitem_Some _ _ _ Ha). simpl.
    rewrite Float64.float_of_bool_truthy. f_equal.
    unfold Spec.flagged. destruct (Close_values data !! i); [|done].
    by rewrite bool_decide_eq_false_2 by lia.
  - intros i Hi.
    destruct (lookup_lt_is_Some_2 data i) as [[t p] Hd]; [lia|].
    assert (Close_values data !! i = Some p) as Hp
      by (unfold Close_values; by rewrite list_lookup_fmap, Hd).
    eexists. split; [by apply (Hpts i t p)|]. simpl.
    destruct (Hall i) as (Ha & Hm & Hs); [lia|].
    rewrite decide_True in Hm, Hs by lia.
    split; [by apply ZScore.z_score_locals_eq; [lia|]|].
    split; [done|]. split; [done|].
    rewrite (Loops.getitem_Some _ _ _ Ha). simpl.
    rewrite Float64.float_of_bool_truthy. f_equal.
    unfold Spec.flagged. rewrite Hp.
    by rewrite bool_decide_eq_true_2 by lia.
Qed.

End Facts.
End Duplicate.

(** ** The monitor: one ticker of one polling cycle *)

Module Engine.
Section Facts.

Context {NP : Numpy} {SK : Sklearn}.

Variable window_size : nat.
Variable threshold : float.

Local Abbreviation detect := (AnomalyDetector.detect window_size threshold).
Local Abbreviation monitor_try :=
  (StockMonitor.monitor_try window_size threshold).
Local Abbreviation monitor_ticker :=
  (StockMonitor.monitor_ticker window_size threshold).

Global Instance same_history_refl : Reflexive Spec.same_history.
Proof. by intros s. Qed.

Global Instance same_history_trans : Transitive Spec.same_history.
Proof. unfold Spec.same_history. intros s1 s2 s3 H12 H23. congruence. Qed.

Global Instance others_kept_refl (ticker : string) :
  Reflexive (Spec.others_kept ticker).
Proof. by intros s other Hne. Qed.

Global Instance others_kept_trans (ticker : string) :
  Transitive (Spec.others_kept ticker).
Proof. intros s1 s2 s3 H12 H23 other Hne. by rewrite H23, H12. Qed.

Lemma preserves_weaken {A} (R1 R2 : process -> process -> Prop)
    (m : M process A) :
  (forall s s', R1 s s' -> R2 s s') -> preserves R1 m -> preserves R2 m.
Proof. intros Hsub Hm s. apply Hsub, Hm. Qed.

Lemma same_history_others (ticker : string) (s s' : process) :
  Spec.same_history s s' -> Spec.others_kept ticker s s'.
Proof. intros H other _. by rewrite H. Qed.

Lemma detect_keeps_history (data : price_frame) (method : string) :
  preserves Spec.same_history (detect data method).
Proof.
  unfold AnomalyDetector.detect.
  case_decide; [by apply Isolation.preserves_ret|].
  apply Isolation.preserves_bind; try apply _.
  - repeat case_decide.
    + apply Isolation.preserves_bind; try apply _;
        [by apply Isolation.preserves_lift|].
      intros [[a m] sd]. by apply Isolation.preserves_ret.
    + apply Isolation.preserves_bind; try apply _.
      * intros s. rewrite Isolation.isolation_forest_detection_eq.
        case_decide; [done|]. cbv zeta.
        destruct (lookup_model _ (models s)); [done|].
        by destruct (estimators_ _).
      * intros a. by apply Isolation.preserves_ret.
    + by apply Isolation.preserves_raise.
  - intros [[a m] sd]. apply Isolation.preserves_bind; try apply _;
      [by apply Isolation.preserves_lift|].
    intros rows. by apply Isolation.preserves_ret.
Qed.

Lemma history_of_keeps_history (ticker : string) :
  preserves Spec.same_history (StockMonitor.history_of ticker).
Proof.
  apply Isolation.preserves_bind; try apply _;
    [by apply Isolation.preserves_get|].
  intros s. destruct (history s !! ticker);
    [by apply Isolation.preserves_ret|by apply Isolation.preserves_raise].
Qed.

Lemma process_alerts_keeps_history (ticker : string)
    (results : option (list row)) :
  preserves Spec.same_history (StockMonitor.process_alerts ticker results).
Proof.
  destruct results as [[|r rs]|]; simpl; try by apply Isolation.preserves_ret.
  apply Isolation.preserves_bind; try apply _;
    [by apply Isolation.preserves_modify|]. intros _.
  apply Isolation.preserves_bind; try apply _;
    [apply history_of_keeps_history|].
  intros h. by apply Isolation.preserves_modify.
Qed.

Lemma update_history_keeps_others (ticker : string)
    (new_data : option (list row)) :
  preserves (Spec.others_kept ticker)
    (StockMonitor.update_history ticker new_data).
Proof.
  destruct new_data as [[|r rs]|]; simpl; try by apply Isolation.preserves_ret.
  apply Isolation.preserves_bind; try apply _.
  - eapply preserves_weaken;
      [apply same_history_others|apply history_of_keeps_history].
  - intros old. apply Isolation.preserves_modify.
    intros s other Hne. simpl. by rewrite lookup_insert_ne.
Qed.

(** Whatever happens while a ticker is handled, the frames stored for the
    other tickers are as they were. *)
Lemma monitor_ticker_keeps_others (ticker : string)
    (fetched : option price_frame) (s : process) :
  Spec.others_kept ticker s (monitor_ticker ticker fetched s).
Proof.
  assert (preserves (Spec.others_kept ticker) (monitor_try ticker fetched))
    as Htry.
  { unfold StockMonitor.monitor_try.
    apply Isolation.preserves_bind; try apply _.
    - destruct fetched as [[|d data]|]; simpl;
        try (apply Isolation.preserves_bind; try apply _;
             [by apply Isolation.preserves_modify|intros _]);
        by apply Isolation.preserves_ret.
    - intros [|]; destruct fetched as [data|];
        try by apply Isolation.preserves_ret.
      apply Isolation.preserves_bind; try apply _.
      { eapply preserves_weaken;
          [apply same_history_others|apply detect_keeps_history]. }
      intros z. apply Isolation.preserves_bind; try apply _.
      { eapply preserves_weaken;
          [apply same_history_others|apply detect_keeps_history]. }
      intros i. apply Isolation.preserves_bind; try apply _;
        [apply update_history_keeps_others|]. intros _.
      apply Isolation.preserves_bind; try apply _;
        [apply update_history_keeps_others|]. intros _.
      apply Isolation.preserves_bind; try apply _.
      { eapply preserves_weaken;
          [apply same_history_others|apply process_alerts_keeps_history]. }
      intros _. eapply preserves_weaken;
        [apply same_history_others|apply process_alerts_keeps_history]. }
  unfold StockMonitor.monitor_ticker. specialize (Htry s).
  destruct (monitor_try ticker fetched s) as [[u|e] s1]; simpl in Htry; done.
Qed.

(** C6, as the code has it.  For a non-empty validated batch of a monitored
    ticker on which the density detector does not raise (the parametric one
    never does), the monitor merges into the ticker's history the anomaly
    records the two detectors returned, those of the z-score first, each
    merge dropping the rows whose timestamp is already stored.  The points of
    the batch that were not flagged are not stored: when neither detector
    flags a point, the history is as it was. *)
Theorem monitor_merges_anomaly_records (ticker : string) (d : Z * float)
    (rest : price_frame) (s : process) (old : list row)
    (isolation_results : option (list row)) :
  history s !! ticker = Some old ->
  (detect (d :: rest) "isolation" s).1 = Ok isolation_results ->
  exists zscore_results,
    detect (d :: rest) "zscore" s = (Ok zscore_results, s) /\
    history (monitor_ticker ticker (Some (d :: rest)) s) !! ticker =
      Some (Spec.merged (Spec.merged old zscore_results) isolation_results) /\
    (Spec.records zscore_results = [] -> Spec.records isolation_results = [] ->
     history (monitor_ticker ticker (Some (d :: rest)) s) !! ticker = Some old).
Proof.
  intros Hold Hiso. eexists. split; [apply ZScore.detect_zscore_eq|].
  set (z := if decide (length (d :: rest) < window_size) then None else _).
  assert (history (monitor_ticker ticker (Some (d :: rest)) s) !! ticker =
          Some (Spec.merged (Spec.merged old z) isolation_results)) as Hfinal.
  { unfold StockMonitor.monitor_ticker, StockMonitor.monitor_try. simpl.
    unfold mbind, M_bind, Py.bind. simpl.
    rewrite ZScore.detect_zscore_eq. fold z.
    pose proof (detect_keeps_history (d :: rest) "isolation" s) as Hh.
    destruct (detect (d :: rest) "isolation" s) as [r s1]. simpl in Hiso, Hh.
    subst r. unfold Spec.same_history in Hh.
    destruct (Store.update_history_run ticker z s1 old)
      as (s2 & -> & Hh2 & _); [by rewrite Hh|].
    destruct (Store.update_history_run ticker isolation_results s2
                (Spec.merged old z)) as (s3 & -> & Hh3 & _);
      [by rewrite Hh2, lookup_insert_eq|].
    pose proof (process_alerts_keeps_history ticker z s3) as Ha1.
    destruct (StockMonitor.process_alerts ticker z s3) as [[u|e] s4];
      simpl in Ha1; unfold Spec.same_history in Ha1.
    - pose proof (process_alerts_keeps_history ticker isolation_results s4)
        as Ha2.
      destruct (StockMonitor.process_alerts ticker isolation_results s4)
        as [[u'|e'] s5]; simpl in Ha2; unfold Spec.same_history in Ha2; simpl;
        by rewrite Ha2, Ha1, Hh3, lookup_insert_eq.
    - simpl. by rewrite Ha1, Hh3, lookup_insert_eq. }
  split; [exact Hfinal|].
  intros Hz Hi. rewrite Hfinal. f_equal.
  assert (forall h r, Spec.records r = [] -> Spec.merged h r = h) as Hnone.
  { intros h [[|r0 rs]|] Hr; simpl in *; done. }
  by rewrite (Hnone _ _ Hi), (Hnone _ _ Hz).
Qed.

End Facts.
End Engine.

(** ** The properties on concrete runs *)

Module Concrete.

(** The spike after prices alternating 9 and 11 is the one point flagged, with
    the mean 10 and standard deviation 1 of the two prices before it. *)
Example detect_flags_the_spike :
  Run.detect Run.spike "zscore" (Run.init ["X"] []) =
    (Ok (Some [mkRow 4 50 10 1 "zscore" true]), Run.init ["X"] []).
Proof. vm_compute. reflexivity. Qed.

(** C3 at a window of two equal prices followed by a price ten times larger. *)
Lemma zero_std_never_flags_flat :
  AnomalyDetector.z_score_locals (NP := Reference.numpy) 2
      (Close_values (Run.frame [10; 10; 100]%float)) 2 =
    Ok (Reference.mean
          (slice (2 - 2) 2 (Close_values (Run.frame [10; 10; 100]%float))),
        Reference.std
          (slice (2 - 2) 2 (Close_values (Run.frame [10; 10; 100]%float))),
        0%float) /\
  (exists anomalies means stds,
     AnomalyDetector.z_score_detection (NP := Reference.numpy) 2 3%float
       (Close_values (Run.frame [10; 10; 100]%float))
       = Ok (anomalies, means, stds) /\
     anomalies !! 2 = Some 0%float /\
     truthy (f64 anomalies) 2 = Ok false) /\
  Spec.flagged_record (NP := Reference.numpy) 2 3%float
    (Run.frame [10; 10; 100]%float) 2 = None.
Proof.
  apply (ZScore.zero_std_never_flags (NP := Reference.numpy) 2 3%float
           (Run.frame [10; 10; 100]%float) 2).
  - vm_compute. reflexivity.
  - simpl. lia.
  - vm_compute. reflexivity.
Defined.

(** C3, as stated for windows of constant prices, fails: with a window of
    three points and the threshold 3, the window [0.1, 0.1, 0.1] is constant,
    but its computed mean is 0.10000000000000002 and its computed standard
    deviation [2^-56], not zero; the test [std == 0] fails, the division is
    evaluated, and the next point, 0.2, is flagged with a z-score of about
    [7.2e15]. *)
Lemma constant_window_flagged :
  Spec.constant_window
    (Spec.trailing_window 3 (Close_values Run.tenths) 3) /\
  PrimFloat.eqb
    (np_std (Numpy := Reference.numpy) (slice (3 - 3) 3 (Close_values Run.tenths)))
    0 = false /\
  AnomalyDetector.z_score_locals (NP := Reference.numpy) 3
      (Close_values Run.tenths) 3 =
    Ok (0.10000000000000002%float, 0x1p-56%float, 7205759403792793%float) /\
  AnomalyDetector.detect (NP := Reference.numpy) (SK := Reference.range_forest)
      3 3%float Run.tenths "zscore" (Run.init ["X"] []) =
    (Ok (Some [mkRow 3 0.2 0.10000000000000002 0x1p-56 "zscore" true]),
     Run.init ["X"] []) /\
  ~ Spec.constant_never_flagged (NP := Reference.numpy) 3 3%float Run.tenths 3.
Proof.
  assert (Spec.constant_window
            (Spec.trailing_window 3 (Close_values Run.tenths) 3)) as Hconst.
  { exists 0.1%float. vm_compute. repeat constructor. }
  split; [exact Hconst|].
  split; [vm_compute; reflexivity|].
  split; [vm_compute; reflexivity|].
  split; [vm_compute; reflexivity|].
  intros Hnever.
  assert (Spec.flagged_record (NP := Reference.numpy) 3 3%float Run.tenths 3
            = None) as Hnone.
  { apply Hnever; [simpl; lia | exact Hconst]. }
  vm_compute in Hnone. discriminate Hnone.
Qed.

(** C10 at the method ['median']. *)
Lemma detect_unknown_method_raises_median :
  Run.detect Run.spike "median" (Run.init ["X"] []) =
    (Raise (ValueError ("Unknown method: " +:+ "median")), Run.init ["X"] []).
Proof.
  apply (ZScore.detect_unknown_method_raises (NP := Reference.numpy)
           (SK := Reference.range_forest) 2 3%float Run.spike "median").
  - simpl. lia.
  - discriminate.
  - discriminate.
Defined.

(** C5 at three points on the density path, where four are needed. *)
Lemma detect_insufficient_data_flat :
  exists r,
    Run.detect Run.flat "isolation" (Run.init ["X"] []) =
      (Ok r, Run.init ["X"] []) /\
    Spec.records r = [].
Proof.
  apply (Isolation.detect_insufficient_data (NP := Reference.numpy)
           (SK := Reference.range_forest) 2 3%float Run.flat "isolation").
  right. split; [reflexivity|]. simpl. lia.
Defined.

(** C4 at two inputs that share their two leading prices, with the monitor
    handling a ticker between the two calls. *)
Lemma isolation_model_fitted_once_spike :
  let key := take 2 Run.first_call in
  let s0 := Run.init ["X"] [] in
  let s1 := (Run.isolation_forest_detection Run.first_call s0).2 in
  let s2 := Run.monitor_ticker "X" (Some Run.flat) s1 in
  exists m,
    lookup_model key (models s1) = Some m /\
    (lookup_model key (models s0) = None ->
       m = mkForest 0.05%float (sk_fit 0.05%float key (env s0)).1 /\
       fit_calls s1 = fit_calls s0 ++ [(0.05%float, key)]) /\
    (forall m0, lookup_model key (models s0) = Some m0 ->
       m = m0 /\ fit_calls s1 = fit_calls s0) /\
    Run.isolation_forest_detection Run.second_call s2 =
      (Spec.predicted_by m Run.second_call, s2) /\
    length (Spec.fits_of key s2) <= S (length (Spec.fits_of key s0)).
Proof.
  apply (Isolation.isolation_model_fitted_once (NP := Reference.numpy)
           (SK := Reference.range_forest) 2 3%float
           Run.first_call Run.second_call (Run.init ["X"] [])).
  - simpl. lia.
  - simpl. lia.
  - vm_compute. reflexivity.
  - apply rtc_once. apply Spec.step_monitor.
Defined.

(** C2 (as the code has it) at a stored anomaly of time 5 and a batch holding
    an anomaly of time 3. *)
Lemma update_history_keeps_first_seen_late :
  exists s',
    StockMonitor.update_history "AAPL" (Some [Run.early]) Run.stored_late
      = (Ok tt, s') /\
    history s' !! "AAPL" = Some (Spec.merged [Run.late] (Some [Run.early])) /\
    Spec.merged_first_seen [Run.late] (Spec.records (Some [Run.early]))
      (Spec.merged [Run.late] (Some [Run.early])) /\
    forall other, other <> "AAPL" ->
      history s' !! other = history Run.stored_late !! other.
Proof.
  apply (Store.update_history_keeps_first_seen "AAPL" (Some [Run.early])
           Run.stored_late [Run.late]).
  - vm_compute. reflexivity.
  - apply NoDup_singleton.
Defined.

(** C2, as stated, fails: the monitor stores the z-score anomaly of time 5,
    then the isolation anomaly of time 3 of the same batch; the stored frame
    is [late; early], times 5 then 3, which is not in ascending order. *)
Lemma update_history_leaves_unsorted :
  exists s',
    StockMonitor.update_history "AAPL" (Some [Run.early]) Run.stored_late
      = (Ok tt, s') /\
    history s' !! "AAPL" = Some [Run.late; Run.early] /\
    ~ Spec.merged_sorted [Run.late] [Run.early] [Run.late; Run.early].
Proof.
  eexists. split; [vm_compute; reflexivity|]. split; [vm_compute; reflexivity|].
  intros (_ & _ & _ & Hsorted). simpl in Hsorted.
  apply StronglySorted_inv in Hsorted as [_ Hall].
  apply Forall_inv in Hall. vm_compute in Hall. discriminate.
Qed.

(** The same order arises within one poll: on the prices 9, 11, 12.5, 11,
    12.5, 50 the z-score detector flags time 5 only, the range forest also
    times 2 and 4, and the history ends as times 5, 2, 4. *)
Example monitor_history_out_of_order :
  Time <$> default []
    (history (Run.monitor_ticker "X"
                (Some (Run.frame [9; 11; 12.5; 11; 12.5; 50]%float))
                (Run.init ["X"] [])) !! "X")
  = [5; 2; 4]%Z.
Proof. vm_compute. reflexivity. Qed.

(** C6 (as the code has it) at the spike, which both detectors flag: the
    z-score record is stored, the isolation record of the same time is
    dropped as a duplicate. *)
Lemma monitor_merges_anomaly_records_spike :
  exists zscore_results,
    Run.detect Run.spike "zscore" (Run.init ["X"] [])
      = (Ok zscore_results, Run.init ["X"] []) /\
    history (Run.monitor_ticker "X" (Some Run.spike) (Run.init ["X"] [])) !! "X"
      = Some (Spec.merged (Spec.merged [] zscore_results)
                (Some [mkRow 4 50 nan nan "isolation" true])) /\
    (Spec.records zscore_results = [] ->
     Spec.records (Some [mkRow 4 50 nan nan "isolation" true]) = [] ->
     history (Run.monitor_ticker "X" (Some Run.spike) (Run.init ["X"] [])) !! "X"
       = Some []).
Proof.
  apply (Engine.monitor_merges_anomaly_records (NP := Reference.numpy)
           (SK := Reference.range_forest) 2 3%float "X" (0%Z, 9%float)
           Run.spike_tail (Run.init ["X"] []) []
           (Some [mkRow 4 50 nan nan "isolation" true])).
  - vm_compute. reflexivity.
  - vm_compute. reflexivity.
Defined.

(** C6, as stated, fails: a validated batch of three equal prices holds no
    anomaly; after the monitor has handled it the ticker's history is still
    empty, so no point of the batch was merged. *)
Lemma monitor_leaves_batch_unmerged :
  exists stored,
    history (Run.monitor_ticker "X" (Some Run.flat) (Run.init ["X"] [])) !! "X"
      = Some stored /\
    Run.flat <> [] /\
    ~ Spec.batch_merged Run.flat stored.
Proof.
  exists []. split; [vm_compute; reflexivity|]. split; [discriminate|].
  intros Hall. destruct (Hall 0%Z 10%float) as (r & Hr & _).
  - unfold Run.flat, Run.frame. simpl. apply elem_of_cons. by left.
  - by apply elem_of_nil in Hr.
Qed.

(** C7 on a run.  Tickers X and Y return the same batch and the first call of
    [fit] raises.  Handling X leaves an unfitted model in the cache under the
    batch's leading prices.  Handling Y then finds that model: its density
    detection raises [NotFittedError], and Y's history stays empty although
    the z-score detector flagged the spike, which is stored when X has not
    failed before. *)
Theorem unfitted_model_reaches_other_ticker :
  let s0 := Run.init ["X"; "Y"] [false] in
  let s1 := Run.monitor_ticker "X" (Some Run.spike) s0 in
  let s2 := Run.monitor_ticker "Y" (Some Run.spike) s1 in
  models s1 = [([9; 11]%float, @mkForest Reference.range_forest 0.05%float None)] /\
  Run.detect Run.spike "isolation" s1 = (Raise NotFittedError, s1) /\
  output s2 = [LogError "X" LibraryError; LogError "Y" NotFittedError] /\
  history s2 !! "Y" = Some [] /\
  history (Run.monitor_ticker "Y" (Some Run.spike) (Run.init ["X"; "Y"] []))
    !! "Y" = Some [mkRow 4 50 10 1 "zscore" true].
Proof. vm_compute. repeat split; reflexivity. Qed.

End Concrete.

(** * Further properties *)

(** ** A rule for the operations of the process *)

Module Frame.

(** A loop that returned kept what every returning iteration keeps. *)
Lemma for_returned {St} (P : St -> Prop) (body : nat -> St -> result St)
    (xs : list nat) (st st' : St) :
  P st ->
  (forall x st0 st1, P st0 -> body x st0 = Ok st1 -> P st1) ->
  for_ xs body st = Ok st' -> P st'.
Proof.
  intros HP Hbody. revert st HP. induction xs as [|x xs IH]; intros st HP; simpl.
  - by intros [= <-].
  - destruct (body x st) as [st1|e] eqn:Hx; [|done].
    apply IH. by eapply Hbody.
Qed.

Section Rule.

Context {NP : Numpy} {SK : Sklearn}.

Variable window_size : nat.
Variable threshold : float.

Local Abbreviation detect := (AnomalyDetector.detect window_size threshold).
Local Abbreviation isolation_forest_detection :=
  (AnomalyDetector.isolation_forest_detection window_size).

(** The rows of [detect_results] are flagged and carry the method. *)
Lemma detect_results_tagged (method : string) (timestamps : list Z)
    (prices : list float) (anomalies : ndarray) (means stds : list float)
    (rows : list row) :
  AnomalyDetector.detect_results method timestamps prices anomalies means stds
    = Ok rows ->
  Forall (fun r => Anomaly r = true /\ Method r = method) rows.
Proof.
  unfold AnomalyDetector.detect_results.
  apply (for_returned (Forall (fun r => Anomaly r = true /\ Method r = method)));
    [constructor|].
  intros i rows0 rows1 Hrows. simpl.
  destruct (truthy anomalies i) as [[|]|]; simpl; [|by intros [= <-]|done].
  destruct (getitem timestamps i); simpl; [|done].
  destruct (getitem prices i); simpl; [|done].
  destruct (if decide (method = "zscore") then getitem means i else Ok nan);
    simpl; [|done].
  destruct (if decide (method = "zscore") then getitem stds i else Ok nan);
    simpl; [|done].
  intros [= <-]. apply Forall_app. split; [done|]. by repeat constructor.
Qed.

(** Whatever [detect] returns holds only flagged rows of a known method. *)
Lemma detect_rows_tagged (data : price_frame) (method : string) (s : process)
    (r : option (list row)) :
  (detect data method s).1 = Ok r -> Forall Poll.anomaly_row (Spec.records r).
Proof.
  unfold AnomalyDetector.detect. case_decide; [by intros [= <-]; constructor|].
  unfold mbind, M_bind, Py.bind, Py.lift, mret, M_ret, Py.ret.
  assert (forall a m sd (s1 : process),
    method = "zscore" \/ method = "isolation" ->
    (match AnomalyDetector.detect_results method (index data)
             (Close_values data) a m sd with
     | Ok rows => (Ok (Some rows), s1)
     | Raise e => (Raise e, s1)
     end).1 = Ok r -> Forall Poll.anomaly_row (Spec.records r)) as Hrows.
  { intros a m sd s1 Hmethod.
    destruct (AnomalyDetector.detect_results _ _ _ _ _ _) as [rows|e] eqn:Hres;
      simpl; [|done].
    intros [= <-]. simpl. apply detect_results_tagged in Hres.
    eapply Forall_impl; [exact Hres|]. intros row [Ha Hm]. split; [done|].
    by rewrite Hm. }
  repeat case_decide.
  - destruct (AnomalyDetector.z_score_detection _ _ _) as [[[a m] sd]|e];
      simpl; [|done]. apply Hrows. by left.
  - destruct (isolation_forest_detection _ s) as [[a|e] s1]; simpl; [|done].
    apply Hrows. by right.
  - done.
Qed.

Section Relation.

Context (R : process -> process -> Prop) `{!Reflexive R} `{!Transitive R}.

Hypothesis emit_rule : forall e s, R s (emit e s).
Hypothesis update_rule : forall ticker new_data,
  Forall Poll.anomaly_row (Spec.records new_data) ->
  preserves R (StockMonitor.update_history ticker new_data).
Hypothesis isolation_rule : forall prices,
  preserves R (isolation_forest_detection prices).

(** A bind whose first part returns values with a known property. *)
Lemma preserves_bind_with {A B} (P : A -> Prop) (m : M process A)
    (k : A -> M process B) :
  preserves R m -> (forall s a, (m s).1 = Ok a -> P a) ->
  (forall a, P a -> preserves R (k a)) -> preserves R (m ≫= k).
Proof.
  intros Hm HP Hk s. unfold mbind, M_bind, Py.bind.
  specialize (Hm s). specialize (HP s).
  destruct (m s) as [[a|e] s1]; simpl in *; [|done].
  etrans; [exact Hm|]. by apply Hk, HP.
Qed.

Lemma detect_rule (data : price_frame) (method : string) :
  preserves R (detect data method).
Proof.
  unfold AnomalyDetector.detect.
  case_decide; [by apply Isolation.preserves_ret|].
  apply Isolation.preserves_bind; try apply _.
  - repeat case_decide.
    + apply Isolation.preserves_bind; try apply _;
        [by apply Isolation.preserves_lift|].
      intros [[a m] sd]. by apply Isolation.preserves_ret.
    + apply Isolation.preserves_bind; try apply _; [apply isolation_rule|].
      intros a. by apply Isolation.preserves_ret.
    + by apply Isolation.preserves_raise.
  - intros [[a m] sd]. apply Isolation.preserves_bind; try apply _;
      [by apply Isolation.preserves_lift|].
    intros rows. by apply Isolation.preserves_ret.
Qed.

Lemma history_of_rule (ticker : string) :
  preserves R (StockMonitor.history_of ticker).
Proof.
  apply Isolation.preserves_bind; try apply _;
    [by apply Isolation.preserves_get|].
  intros s. destruct (history s !! ticker);
    [by apply Isolation.preserves_ret|by apply Isolation.preserves_raise].
Qed.

Lemma process_alerts_rule (ticker : string) (results : option (list row)) :
  preserves R (StockMonitor.process_alerts ticker results).
Proof.
  destruct results as [[|r rs]|]; simpl; try by apply Isolation.preserves_ret.
  apply Isolation.preserves_bind; try apply _;
    [by apply Isolation.preserves_modify|]. intros _.
  apply Isolation.preserves_bind; try apply _; [apply history_of_rule|].
  intros h. by apply Isolation.preserves_modify.
Qed.

Lemma monitor_try_rule (ticker : string) (fetched : option price_frame) :
  preserves R (StockMonitor.monitor_try window_size threshold ticker fetched).
Proof.
  unfold StockMonitor.monitor_try.
  apply Isolation.preserves_bind; try apply _.
  - destruct fetched as [[|d data]|]; simpl;
      try (apply Isolation.preserves_bind; try apply _;
           [by apply Isolation.preserves_modify|intros _]);
      by apply Isolation.preserves_ret.
  - intros [|]; destruct fetched as [data|];
      try by apply Isolation.preserves_ret.
    eapply preserves_bind_with;
      [apply detect_rule|intros s z; apply detect_rows_tagged|].
    intros z Hz.
    eapply preserves_bind_with;
      [apply detect_rule|intros s i; apply detect_rows_tagged|].
    intros i Hi.
    apply Isolation.preserves_bind; try apply _; [by apply update_rule|].
    intros _.
    apply Isolation.preserves_bind; try apply _; [by apply update_rule|].
    intros _.
    apply Isolation.preserves_bind; try apply _; [apply process_alerts_rule|].
    intros _. apply process_alerts_rule.
Qed.

Lemma monitor_ticker_rule (ticker : string) (fetched : option price_frame)
    (s : process) :
  R s (StockMonitor.monitor_ticker window_size threshold ticker fetched s).
Proof.
  unfold StockMonitor.monitor_ticker.
  pose proof (monitor_try_rule ticker fetched s) as H.
  destruct (StockMonitor.monitor_try _ _ _ _ s) as [[u|e] s1]; simpl in H;
    [done|]. etrans; [exact H|apply emit_rule].
Qed.

(** What the three primitive effects keep, every operation keeps. *)
Lemma steps_rule (s s' : process) :
  rtc (Spec.step window_size threshold) s s' -> R s s'.
Proof.
  induction 1 as [|s1 s2 s3 H12 _ IH]; [reflexivity|].
  etrans; [|exact IH]. destruct H12 as [prices s0|data method s0|ticker fetched s0].
  - apply isolation_rule.
  - apply detect_rule.
  - apply monitor_ticker_rule.
Qed.

End Relation.
End Rule.
End Frame.

(** ** More on the model cache *)

Module Cache.
Section Facts.

Context {NP : Numpy} {SK : Sklearn}.

Variable window_size : nat.
Variable threshold : float.

Local Abbreviation isolation_forest_detection :=
  (AnomalyDetector.isolation_forest_detection window_size).
Local Abbreviation step := (Spec.step window_size threshold).

Lemma lookup_model_None (key : list float)
    (ms : list (list float * IsolationForest)) :
  lookup_model key ms = None <->
  Forall (fun km => tuple_eqb km.1 key = false) ms.
Proof.
  induction ms as [|[k m] ms IH]; simpl; [by split; [constructor|]|].
  rewrite Forall_cons. simpl. destruct (tuple_eqb k key); [|tauto].
  split; [done|]. intros [? _]. done.
Qed.

(** No tuple is equal to one that holds a NaN. *)
Lemma tuple_eqb_nan (k key : list float) (j : nat) (p : float) :
  key !! j = Some p -> PrimFloat.is_nan p = true -> tuple_eqb k key = false.
Proof.
  intros Hj Hnan. unfold PrimFloat.is_nan in Hnan.
  apply negb_true_iff in Hnan.
  revert k j Hj. induction key as [|y key IH]; intros [|x k] [|j] Hj;
    simpl in *; try done.
  - injection Hj as ->. destruct (PrimFloat.eqb x p) eqn:Hx; [|done].
    by rewrite (Float64.eqb_trans p x p (Float64.eqb_sym _ _ Hx) Hx) in Hnan.
  - rewrite (IH k j Hj). apply andb_false_r.
Qed.

(** What a call does to the state: nothing, or one new entry and one fit. *)
Lemma isolation_state (prices : list float) (s : process) :
  let s' := (isolation_forest_detection prices s).2 in
  s' = s \/
  (window_size * 2 <= length prices /\
   lookup_model (take window_size prices) (models s) = None /\
   s' = mkProcess
          (models s ++ [(take window_size prices,
             mkForest 0.05%float
               (sk_fit 0.05%float (take window_size prices) (env s)).1)])
          (history s)
          (sk_fit 0.05%float (take window_size prices) (env s)).2
          (fit_calls s ++ [(0.05%float, take window_size prices)])
          (output s)).
Proof.
  cbv zeta. rewrite Isolation.isolation_forest_detection_eq.
  case_decide as Hlen; [by left|]. cbv zeta.
  destruct (lookup_model _ (models s)) eqn:Hlook; [by left|].
  right. split; [lia|]. split; [done|]. by destruct (estimators_ _).
Qed.

Lemma update_history_cache_untouched (ticker : string)
    (new_data : option (list row)) (s : process) :
  Poll.cache_untouched s (StockMonitor.update_history ticker new_data s).2.
Proof.
  destruct new_data as [[|r rs]|]; simpl; try done.
  unfold StockMonitor.history_of, mbind, M_bind, Py.bind, Py.get.
  by destruct (history s !! ticker).
Qed.

(** A call keeps the cache and the record of fits in step. *)
Lemma isolation_keeps_sound (prices : list float) (s : process) :
  Poll.cache_sound s ->
  Poll.cache_sound (isolation_forest_detection prices s).2.
Proof.
  intros (Hkeys & Hfits & Hmodels & Hdistinct).
  destruct (isolation_state prices s) as [->|(_ & Hnone & ->)];
    [done|].
  unfold Poll.cache_sound. simpl.
  rewrite !fmap_app, Hkeys. simpl.
  split; [done|]. split; [apply Forall_app; split; [done|by repeat constructor]|].
  split; [apply Forall_app; split; [done|by repeat constructor]|].
  intros i j k1 k2 Hij H1 H2.
  assert (length ((fit_calls s).*2) = length (models s)) as Hlen
    by (by rewrite <- Hkeys, length_fmap).
  destruct (decide (j < length (models s))) as [Hj|Hj].
  - rewrite lookup_app_l in H1, H2 by lia.
    eapply (Hdistinct i j); [done|by rewrite Hkeys..].
  - rewrite lookup_app_r in H2 by lia.
    destruct (j - length ((fit_calls s).*2)) eqn:Hd; [|done].
    simpl in H2. injection H2 as <-.
    rewrite lookup_app_l in H1 by lia.
    apply lookup_model_None in Hnone.
    rewrite <- Hkeys, list_lookup_fmap in H1.
    destruct (models s !! i) as [[k m]|] eqn:Hi; [|done].
    simpl in H1. injection H1 as <-.
    by apply (Forall_lookup_1 _ _ _ _ Hnone Hi).
Qed.

(** X1, the cache invariant.  In every state reached from [__init__], the keys
    of the cache are, in order, the training sets of the calls of [fit] made
    so far, one call per entry; every one was made with contamination 0.05,
    as every cached model has; and no two keys are equal tuples. *)
Theorem cache_entries_fitted_once (s : process) :
  Poll.reachable window_size threshold s -> Poll.cache_sound s.
Proof.
  intros (tickers & e & Hsteps).
  assert (Poll.cache_sound (StockMonitor.init tickers e)) as Hinit.
  { unfold Poll.cache_sound. simpl. repeat split; try by constructor.
    intros i j k1 k2 _ H1. done. }
  revert Hinit.
  unshelve eapply (@Frame.steps_rule _ _ window_size threshold
           (fun s s' => Poll.cache_sound s -> Poll.cache_sound s')
           _ _ _ _ _ _ _ Hsteps).
  - by intros s1.
  - intros s1 s2 s3 H12 H23 H1. auto.
  - intros ev s1 Hs. exact Hs.
  - intros ticker new_data _ s1. unfold Poll.cache_sound.
    destruct (update_history_cache_untouched ticker new_data s1)
      as (-> & _ & ->). done.
  - intros prices s1. apply isolation_keeps_sound.
Qed.

(** X2, a failing fit.  When the fit of a new key raises, the call raises,
    having recorded the fit and left the model, unfitted, in the cache under
    the key.  From then on, whatever the process does in between, every call
    on an input of [2 * window_size] points or more with an equal key raises
    [NotFittedError] without changing the state: the key is never fitted
    again. *)
Theorem failed_fit_is_never_retried (prices later : list float)
    (s s2 : process) :
  let key := take window_size prices in
  let first := isolation_forest_detection prices s in
  window_size * 2 <= length prices ->
  window_size * 2 <= length later ->
  lookup_model key (models s) = None ->
  (sk_fit 0.05%float key (env s)).1 = None ->
  tuple_eqb key (take window_size later) = true ->
  rtc step first.2 s2 ->
  first.1 = Raise LibraryError /\
  models first.2 = models s ++ [(key, mkForest 0.05%float None)] /\
  fit_calls first.2 = fit_calls s ++ [(0.05%float, key)] /\
  isolation_forest_detection later s2 = (Raise NotFittedError, s2).
Proof.
  intros key first Hlen Hlen2 Hnone Hfit Hkeys Hsteps.
  assert (tuple_eqb key key = true) as Hrefl.
  { eapply Float64.tuple_eqb_trans; [exact Hkeys|].
    by apply Float64.tuple_eqb_sym. }
  assert (first = (Raise LibraryError,
            mkProcess (models s ++ [(key, mkForest 0.05%float None)])
              (history s) (sk_fit 0.05%float key (env s)).2
              (fit_calls s ++ [(0.05%float, key)]) (output s))) as Hfirst.
  { subst first. rewrite Isolation.isolation_forest_detection_eq.
    rewrite decide_False by lia. cbv zeta. fold key. rewrite Hnone.
    simpl. by rewrite Hfit. }
  rewrite Hfirst in *. simpl in *. repeat split; try done.
  assert (lookup_model key
            (models s ++ [(key, mkForest 0.05%float None)]) =
          Some (mkForest 0.05%float None)) as Hcached
    by (by rewrite (Isolation.lookup_model_app_None _ _ _ _ Hnone), Hrefl).
  destruct (Isolation.steps_keep_cache window_size threshold key _ s2
              Hsteps _ Hcached) as [Hm2 _].
  rewrite Isolation.isolation_forest_detection_eq.
  rewrite decide_False by lia. cbv zeta.
  by rewrite <- (Isolation.lookup_model_congr _ _ (models s2) Hkeys), Hm2.
Qed.

(** X3, a NaN in the key.  When one of the leading [window_size] prices is
    NaN, no cached key is equal to the key of the call, whatever the cache
    holds: every such call on [2 * window_size] points or more fits a new
    model and adds an entry to the cache. *)
Theorem nan_key_always_refits (prices : list float) (j : nat) (p : float)
    (s : process) :
  window_size * 2 <= length prices ->
  j < window_size ->
  prices !! j = Some p ->
  PrimFloat.is_nan p = true ->
  let s' := (isolation_forest_detection prices s).2 in
  lookup_model (take window_size prices) (models s) = None /\
  length (models s') = S (length (models s)) /\
  fit_calls s' = fit_calls s ++ [(0.05%float, take window_size prices)] /\
  lookup_model (take window_size prices) (models s') = None.
Proof.
  intros Hlen Hj Hp Hnan s'.
  assert (forall ms, lookup_model (take window_size prices) ms = None) as Hmiss.
  { intros ms. apply lookup_model_None, Forall_forall. intros [k m] _. simpl.
    apply (tuple_eqb_nan k _ j p); [|done]. by rewrite lookup_take_lt. }
  split; [apply Hmiss|].
  subst s'. rewrite Isolation.isolation_forest_detection_eq.
  rewrite decide_False by lia. cbv zeta. rewrite Hmiss.
  destruct (estimators_ _); simpl; rewrite length_app; simpl;
    (split; [lia|]); (split; [done|apply Hmiss]).
Qed.

End Facts.
End Cache.

(** ** More on the monitor of [main.py] *)

Module Ledger.
Section Facts.

Context {NP : Numpy} {SK : Sklearn}.

Variable window_size : nat.
Variable threshold : float.

Local Abbreviation detect := (AnomalyDetector.detect window_size threshold).
Local Abbreviation isolation_forest_detection :=
  (AnomalyDetector.isolation_forest_detection window_size).
Local Abbreviation monitor_ticker :=
  (StockMonitor.monitor_ticker window_size threshold).
Local Abbreviation step := (Spec.step window_size threshold).
Local Abbreviation zscore_results :=
  (Poll.zscore_results window_size threshold).

Lemma detect_zscore_run (data : price_frame) (s : process) :
  detect data "zscore" s = (Ok (zscore_results data), s).
Proof. apply ZScore.detect_zscore_eq. Qed.

(** [detect] on the density path, in terms of the detector's call. *)
Lemma detect_isolation_unfold (data : price_frame) (s : process) :
  detect data "isolation" s =
    if decide (length data < window_size) then (Ok None, s)
    else
      match isolation_forest_detection (Close_values data) s with
      | (Ok a, s1) =>
          (match AnomalyDetector.detect_results "isolation" (index data)
                   (Close_values data) a (zeros_like (Close_values data))
                   (zeros_like (Close_values data)) with
           | Ok rows => Ok (Some rows)
           | Raise e => Raise e
           end, s1)
      | (Raise e, s1) => (Raise e, s1)
      end.
Proof.
  unfold AnomalyDetector.detect. case_decide; [done|].
  rewrite decide_False by done. rewrite decide_True by done.
  unfold mbind, M_bind, Py.bind, Py.lift, mret, M_ret, Py.ret.
  destruct (isolation_forest_detection _ s) as [[a|e] s1]; [|done].
  by destruct (AnomalyDetector.detect_results _ _ _ _ _ _).
Qed.

(** [detect] touches neither the history nor the output. *)
Lemma detect_quiet (data : price_frame) (method : string) (s : process) :
  Poll.quiet s (detect data method s).2.
Proof.
  assert (Poll.quiet s (isolation_forest_detection (Close_values data) s).2)
    as Hiso.
  { destruct (Cache.isolation_state window_size (Close_values data) s)
      as [->|(_ & _ & ->)]; done. }
  unfold AnomalyDetector.detect. case_decide; [done|].
  unfold mbind, M_bind, Py.bind, Py.lift, mret, M_ret, Py.ret, Py.raise.
  repeat case_decide.
  - destruct (AnomalyDetector.z_score_detection _ _ _) as [[[a m] sd]|e];
      [|done].
    by destruct (AnomalyDetector.detect_results _ _ _ _ _ _).
  - destruct (isolation_forest_detection _ s) as [[a|e] s1]; [|done].
    by destruct (AnomalyDetector.detect_results _ _ _ _ _ _).
  - done.
Qed.

(** The alerts for one result frame, on a ticker that has a frame. *)
Lemma process_alerts_run (ticker : string) (results : option (list row))
    (s : process) (h : list row) :
  history s !! ticker = Some h ->
  StockMonitor.process_alerts ticker results s =
    (Ok tt, mkProcess (models s) (history s) (env s) (fit_calls s)
              (output s ++ Poll.alerts_of ticker results h)).
Proof.
  intros Hh. destruct s as [ms hs e fs out]. simpl in Hh.
  destruct results as [[|r rs]|]; simpl; rewrite ?app_nil_r; try done.
  unfold StockMonitor.history_of, mbind, M_bind, Py.bind, Py.modify, Py.get,
    emit. simpl. rewrite Hh. simpl. by rewrite <- app_assoc.
Qed.

(** One ticker of the loop, when the density detector returns and the ticker
    has a frame: the state it ends in. *)
Lemma monitor_ticker_run (ticker : string) (d : Z * float)
    (rest : price_frame) (s s1 : process) (old : list row)
    (i : option (list row)) :
  history s !! ticker = Some old ->
  detect (d :: rest) "isolation" s = (Ok i, s1) ->
  let z := zscore_results (d :: rest) in
  let h := Spec.merged (Spec.merged old z) i in
  monitor_ticker ticker (Some (d :: rest)) s =
    mkProcess (models s1) (<[ticker := h]> (history s)) (env s1) (fit_calls s1)
      (output s ++ Poll.alerts_of ticker z h ++ Poll.alerts_of ticker i h).
Proof.
  intros Hold Hiso z h.
  unfold StockMonitor.monitor_ticker, StockMonitor.monitor_try. simpl.
  unfold mbind, M_bind, Py.bind. simpl.
  rewrite detect_zscore_run. fold z. rewrite Hiso.
  destruct (detect_quiet (d :: rest) "isolation" s) as [Hh Ho].
  rewrite Hiso in Hh, Ho. simpl in Hh, Ho.
  destruct (Store.update_history_run ticker z s1 old)
    as (s2 & -> & Hh2 & Hm2 & He2 & Hf2 & Ho2); [by rewrite Hh|].
  destruct (Store.update_history_run ticker i s2 (Spec.merged old z))
    as (s3 & -> & Hh3 & Hm3 & He3 & Hf3 & Ho3);
    [by rewrite Hh2, lookup_insert_eq|].
  assert (history s3 = <[ticker := h]> (history s)) as Hh3'
    by (by rewrite Hh3, Hh2, Hh, insert_insert_eq).
  rewrite (process_alerts_run ticker z s3 h)
    by (by rewrite Hh3', lookup_insert_eq).
  rewrite (process_alerts_run ticker i _ h)
    by (simpl; by rewrite Hh3', lookup_insert_eq).
  simpl. rewrite Hm3, Hm2, He3, He2, Hf3, Hf2, Ho3, Ho2, Ho, Hh3'.
  by rewrite <- app_assoc.
Qed.

(** What [update_history] does to the history, whatever comes of it. *)
Lemma update_history_cases (ticker : string) (new_data : option (list row))
    (s : process) :
  let s' := (StockMonitor.update_history ticker new_data s).2 in
  Poll.cache_untouched s s' /\ output s' = output s /\
  (history s' = history s \/
   exists old, history s !! ticker = Some old /\
     history s' = <[ticker := Spec.merged old new_data]> (history s)).
Proof.
  cbv zeta. split; [apply Cache.update_history_cache_untouched|].
  destruct new_data as [[|r rs]|]; simpl; try by (split; [|left]).
  unfold StockMonitor.history_of, mbind, M_bind, Py.bind, Py.get.
  destruct (history s !! ticker) as [old|] eqn:Hold; simpl;
    [|by split; [|left]].
  split; [done|]. right. by exists old.
Qed.

Lemma drop_duplicates_from_Forall (P : row -> Prop) (seen : list Z)
    (df : list row) :
  Forall P df -> Forall P (drop_duplicates_from seen df).
Proof.
  intros H. revert seen. induction H as [|r df Hr _ IH]; intros seen; simpl;
    [constructor|].
  case_decide; [apply IH|]. constructor; [done|apply IH].
Qed.

Lemma merged_Forall (P : row -> Prop) (old : list row)
    (new_data : option (list row)) :
  Forall P old -> Forall P (Spec.records new_data) ->
  Forall P (Spec.merged old new_data).
Proof.
  intros Hold Hnew. destruct new_data as [[|r rs]|]; simpl in *; try done.
  apply drop_duplicates_from_Forall, Forall_app. done.
Qed.

Lemma merged_NoDup (old : list row) (new_data : option (list row)) :
  NoDup (Time <$> old) -> NoDup (Time <$> Spec.merged old new_data).
Proof.
  intros Hold. destruct new_data as [[|r rs]|]; simpl; try done.
  apply History.drop_duplicates_from_NoDup.
Qed.

Lemma merged_prefix (old : list row) (new_data : option (list row)) :
  NoDup (Time <$> old) -> old `prefix_of` Spec.merged old new_data.
Proof.
  intros Hold.
  destruct (History.merged_first_seen_holds old new_data Hold)
    as (_ & _ & _ & ->). by eexists.
Qed.

(** The history [__init__] builds: an empty frame for each ticker and for
    nothing else. *)
Lemma init_history (tickers : list string) (e : sk_env) (ticker : string) :
  history (StockMonitor.init tickers e) !! ticker =
    if decide (ticker ∈ tickers) then Some [] else None.
Proof.
  change (history (StockMonitor.init tickers e)) with
    (list_to_map ((fun t => (t, [])) <$> tickers) : gmap string (list row)).
  induction tickers as [|t tickers IH].
  - apply lookup_empty.
  - rewrite fmap_cons, list_to_map_cons. simpl fst. simpl snd.
    destruct (decide (t = ticker)) as [->|Hne].
    + rewrite lookup_insert_eq.
      by rewrite decide_True by (apply elem_of_cons; by left).
    + rewrite lookup_insert_ne by done. rewrite IH.
      destruct (decide (ticker ∈ tickers)).
      * by rewrite decide_True by (apply elem_of_cons; by right).
      * rewrite decide_False; [done|]. rewrite elem_of_cons.
        intros [Heq|Hin]; [by subst|done].
Qed.

(** X4, the shape of the history.  In every state reached from
    [__init__ (tickers)], the history has a frame for exactly the monitored
    tickers; no frame repeats a timestamp; and every stored row is a flagged
    row ([Anomaly] is true) tagged ['zscore'] or ['isolation']. *)
Theorem history_frames_keep_their_shape (tickers : list string) (e : sk_env)
    (s : process) :
  rtc step (StockMonitor.init tickers e) s ->
  (forall ticker, is_Some (history s !! ticker) <-> ticker ∈ tickers) /\
  Poll.deduplicated s /\
  (forall ticker h, history s !! ticker = Some h -> Forall Poll.anomaly_row h).
Proof.
  intros Hsteps.
  pose (Inv := fun s : process =>
    (forall ticker, is_Some (history s !! ticker) <-> ticker ∈ tickers) /\
    Poll.deduplicated s /\
    (forall ticker h, history s !! ticker = Some h ->
       Forall Poll.anomaly_row h)).
  assert (Inv (StockMonitor.init tickers e)) as Hinit.
  { split; [|split].
    - intros t. rewrite init_history. case_decide; [by split; eauto|].
      split; [by intros [? ?]|done].
    - intros t h. rewrite init_history. case_decide; [|done].
      intros [= <-]. constructor.
    - intros t h. rewrite init_history. case_decide; [|done].
      intros [= <-]. constructor. }
  revert Hinit.
  unshelve eapply (@Frame.steps_rule _ _ window_size threshold
           (fun s s' => Inv s -> Inv s') _ _ _ _ _ _ _ Hsteps).
  - by intros s1.
  - intros s1 s2 s3 H12 H23 H1. auto.
  - intros ev s1 Hs. exact Hs.
  - intros ticker new_data Hrows s1 (Hdom & Hdedup & Htag).
    destruct (update_history_cases ticker new_data s1)
      as (_ & _ & [Hh|(old & Hold & Hh)]);
      unfold Inv, Poll.deduplicated; rewrite Hh; [done|].
    split; [|split].
    + intros t. destruct (decide (t = ticker)) as [->|Hne].
      * rewrite lookup_insert_eq. rewrite <- Hdom, Hold. by split; eauto.
      * by rewrite lookup_insert_ne.
    + intros t h. destruct (decide (t = ticker)) as [->|Hne].
      * rewrite lookup_insert_eq. intros [= <-].
        apply merged_NoDup. by eapply Hdedup.
      * rewrite lookup_insert_ne by done. apply Hdedup.
    + intros t h. destruct (decide (t = ticker)) as [->|Hne].
      * rewrite lookup_insert_eq. intros [= <-].
        apply merged_Forall; [by eapply Htag|done].
      * rewrite lookup_insert_ne by done. apply Htag.
  - intros prices s1 Hs.
    destruct (Cache.isolation_state window_size prices s1)
      as [->|(_ & _ & ->)]; exact Hs.
Qed.

(** X5, stored rows stay.  From a state whose frames repeat no timestamp,
    whatever the process does, every stored frame is still there and begins
    with the rows it had, in their order: a stored row is never removed,
    changed or moved, and the frames still repeat no timestamp. *)
Theorem stored_rows_stay (s s' : process) :
  Poll.deduplicated s -> rtc step s s' ->
  Poll.grown s s' /\ Poll.deduplicated s'.
Proof.
  intros Hdedup Hsteps. revert Hdedup.
  unshelve eapply (@Frame.steps_rule _ _ window_size threshold
           (fun s s' => Poll.deduplicated s ->
                        Poll.grown s s' /\ Poll.deduplicated s')
           _ _ _ _ _ _ _ Hsteps).
  - intros s1 H1. split; [|done]. intros t h Hh. by exists h.
  - intros s1 s2 s3 H12 H23 H1.
    destruct (H12 H1) as [Hg12 H2]. destruct (H23 H2) as [Hg23 H3].
    split; [|done]. intros t h Hh.
    destruct (Hg12 t h Hh) as (h2 & Hh2 & Hp2).
    destruct (Hg23 t h2 Hh2) as (h3 & Hh3 & Hp3).
    exists h3. split; [done|]. by etrans.
  - intros ev s1 H1. split; [|exact H1]. intros t h Hh. by exists h.
  - intros ticker new_data _ s1 H1.
    destruct (update_history_cases ticker new_data s1)
      as (_ & _ & [Hh|(old & Hold & Hh)]);
      unfold Poll.grown, Poll.deduplicated; rewrite Hh.
    { split; [|done]. intros t h Hth. by exists h. }
    split.
    + intros t h Hth. destruct (decide (t = ticker)) as [->|Hne].
      * rewrite lookup_insert_eq. eexists. split; [done|].
        assert (h = old) as -> by congruence.
        apply merged_prefix. by eapply H1.
      * rewrite lookup_insert_ne by done. by exists h.
    + intros t h. destruct (decide (t = ticker)) as [->|Hne].
      * rewrite lookup_insert_eq. intros [= <-].
        apply merged_NoDup. by eapply H1.
      * rewrite lookup_insert_ne by done. apply H1.
  - intros prices s1 H1.
    destruct (Cache.isolation_state window_size prices s1)
      as [->|(_ & _ & ->)]; (split; [|exact H1]); intros t h Hh; by exists h.
Qed.

(** X6, a density detector that raises.  When the density detection of a
    validated batch raises, the ticker's [try] body ends there: the exception
    is logged and nothing else is printed, the history is left as it was, and
    the anomalies the z-score detector found in the batch are neither stored
    nor alerted. *)
Theorem density_failure_drops_the_batch (ticker : string) (d : Z * float)
    (rest : price_frame) (s : process) (e : exn) :
  (detect (d :: rest) "isolation" s).1 = Raise e ->
  let s' := monitor_ticker ticker (Some (d :: rest)) s in
  s' = emit (LogError ticker e) (detect (d :: rest) "isolation" s).2 /\
  history s' = history s /\
  output s' = output s ++ [LogError ticker e].
Proof.
  intros Hraise s'.
  assert (s' = emit (LogError ticker e) (detect (d :: rest) "isolation" s).2)
    as ->.
  { subst s'. unfold StockMonitor.monitor_ticker, StockMonitor.monitor_try.
    simpl. unfold mbind, M_bind, Py.bind. simpl.
    rewrite detect_zscore_run.
    destruct (detect (d :: rest) "isolation" s) as [r s1]. simpl in Hraise.
    by subst r. }
  destruct (detect_quiet (d :: rest) "isolation" s) as [Hh Ho].
  simpl. by rewrite Hh, Ho.
Qed.

(** X7, requests that give nothing.  A pass of the loop in which every request
    failed or returned no row prints one notice per ticker, in order, and
    changes nothing else: no detector runs, no frame and no model is touched. *)
Theorem failed_fetches_only_log (fetches : list (string * option price_frame))
    (s : process) :
  Forall (fun tf => tf.2 = None \/ tf.2 = Some []) fetches ->
  StockMonitor.monitor_cycle window_size threshold fetches s =
    mkProcess (models s) (history s) (env s) (fit_calls s)
      (output s ++ ((fun tf => NoData tf.1) <$> fetches)).
Proof.
  intros Hall. revert s.
  induction Hall as [|[t f] fetches Hf _ IH]; intros s; simpl.
  - rewrite app_nil_r. by destruct s.
  - unfold StockMonitor.monitor_cycle in *. simpl. rewrite IH.
    destruct Hf as [Hf|Hf]; simpl in Hf; subst f; simpl;
      by rewrite <- app_assoc.
Qed.

(** X8, the alerts.  When the density detector returns on a validated batch of
    a ticker that has a frame, the monitor first merges both result frames
    and then alerts: for each non-empty result frame, the z-score one first,
    a console alert and an e-mail alert for its last row, the e-mail carrying
    the ticker's history as it is after both merges. *)
Theorem alerts_follow_the_merges (ticker : string) (d : Z * float)
    (rest : price_frame) (s : process) (old : list row)
    (i : option (list row)) :
  history s !! ticker = Some old ->
  (detect (d :: rest) "isolation" s).1 = Ok i ->
  let s' := monitor_ticker ticker (Some (d :: rest)) s in
  let z := zscore_results (d :: rest) in
  exists h,
    history s' !! ticker = Some h /\
    output s' = output s ++ Poll.alerts_of ticker z h ++ Poll.alerts_of ticker i h.
Proof.
  intros Hold Hiso s' z.
  destruct (detect (d :: rest) "isolation" s) as [r s1] eqn:Hrun.
  simpl in Hiso. subst r. subst s'.
  rewrite (monitor_ticker_run ticker d rest s s1 old i Hold Hrun).
  eexists. simpl. split; [by rewrite lookup_insert_eq|done].
Qed.

End Facts.
End Ledger.

(** ** The density path of [detect], and polling a ticker again *)

Module Polling.
Section Facts.

Context {NP : Numpy} {SK : Sklearn}.

Variable window_size : nat.
Variable threshold : float.

Local Abbreviation detect := (AnomalyDetector.detect window_size threshold).
Local Abbreviation isolation_forest_detection :=
  (AnomalyDetector.isolation_forest_detection window_size).
Local Abbreviation monitor_ticker :=
  (StockMonitor.monitor_ticker window_size threshold).
Local Abbreviation zscore_results :=
  (Poll.zscore_results window_size threshold).
Local Abbreviation poll := (Poll.poll window_size threshold).

(** The loop building [results], on the labels of the density detector. *)
Lemma detect_results_labels (data : price_frame) (preds : list Z)
    (means stds : list float) :
  length preds = length data ->
  AnomalyDetector.detect_results "isolation" (index data) (Close_values data)
      (i64 ((fun p => if (p =? -1)%Z then 1%Z else 0%Z) <$> preds)) means stds =
    Ok (omap (Poll.outlier_record data preds) (seq 0 (length data))).
Proof.
  intros Hlen. unfold AnomalyDetector.detect_results, range.
  assert (length (Close_values data) = length data) as ->
    by (unfold Close_values; apply length_fmap).
  rewrite Nat.sub_0_r.
  destruct (Loops.for_seq_invariant
    (fun k results => results = omap (Poll.outlier_record data preds) (seq 0 k))
    (fun i results =>
       flagged ← truthy
         (i64 ((fun p => if (p =? -1)%Z then 1%Z else 0%Z) <$> preds)) i;
       if flagged : bool then
         t ← getitem (index data) i;
         p ← getitem (Close_values data) i;
         m ← (if decide ("isolation" = "zscore") then getitem means i
              else Ok nan);
         s ← (if decide ("isolation" = "zscore") then getitem stds i
              else Ok nan);
         Ok (results ++ [mkRow t p m s "isolation" true])
       else Ok results) 0 (length data) [])
    as (rows & Hrun & ->); [done| |exact Hrun].
  intros i results [_ Hi] ->; simpl in Hi.
  destruct (lookup_lt_is_Some_2 data i Hi) as [[t p] Hd].
  destruct (lookup_lt_is_Some_2 preds i) as [label Hl]; [lia|].
  rewrite seq_S, omap_app. simpl.
  rewrite (Loops.getitem_Some
             ((fun p => if (p =? -1)%Z then 1%Z else 0%Z) <$> preds) i
             (if (label =? -1)%Z then 1%Z else 0%Z))
    by (by rewrite list_lookup_fmap, Hl).
  simpl.
  assert (Poll.outlier_record data preds i =
          if decide (label = (-1)%Z)
          then Some (mkRow t p nan nan "isolation" true) else None) as ->
    by (unfold Poll.outlier_record; by rewrite Hd, Hl).
  destruct (Z.eqb_spec label (-1)) as [->|Hne]; simpl.
  - unfold index. rewrite (Loops.getitem_Some (data.*1) i t)
      by (by rewrite list_lookup_fmap, Hd).
    simpl. rewrite (Loops.getitem_Some (Close_values data) i p)
      by (unfold Close_values; by rewrite list_lookup_fmap, Hd).
    simpl. eauto.
  - rewrite decide_False by done. rewrite app_nil_r. eauto.
Qed.

(** X9, the rows of the density path.  When the density detector returns the
    labels of a model for the batch, one per row, [detect] returns, in index
    order, a record for exactly the rows labelled [-1]: with the row's time
    and price, NaN for mean and standard deviation, and the method
    ['isolation'].  Every index counts, the first [window_size] ones too. *)
Theorem detect_isolation_rows (data : price_frame) (preds : list Z)
    (s s1 : process) :
  isolation_forest_detection (Close_values data) s =
    (Ok (i64 ((fun p => if (p =? -1)%Z then 1%Z else 0%Z) <$> preds)), s1) ->
  length preds = length data ->
  detect data "isolation" s =
    (Ok (Some (omap (Poll.outlier_record data preds) (seq 0 (length data)))), s1).
Proof.
  intros Hiso Hlen. rewrite Ledger.detect_isolation_unfold.
  assert (~ length data < window_size) as Hw.
  { intros Hshort. rewrite Isolation.isolation_forest_detection_eq in Hiso.
    rewrite decide_True in Hiso; [done|].
    unfold Close_values. rewrite length_fmap. lia. }
  rewrite decide_False by done. rewrite Hiso.
  by rewrite detect_results_labels.
Qed.

Lemma tuple_eqb_refl (l : list float) :
  Forall (fun p => PrimFloat.eqb p p = true) l -> tuple_eqb l l = true.
Proof. induction 1 as [|p l Hp _ IH]; simpl; [done|]. by rewrite Hp, IH. Qed.

Lemma dropna_no_nan (rows : price_frame) :
  Forall (fun p => PrimFloat.eqb p p = true)
    (Close_values (DataFetcher.dropna rows)).
Proof.
  unfold Close_values, DataFetcher.dropna.
  induction rows as [|[t p] rows IH]; simpl; [constructor|].
  unfold PrimFloat.is_nan. destruct (PrimFloat.eqb p p) eqn:Hp; simpl;
    [by constructor|done].
Qed.

(** A call that returned returns the same again, on any state with the cache
    it left. *)
Lemma isolation_repeat (prices : list float) (a : ndarray) (s s1 s' : process) :
  tuple_eqb (take window_size prices) (take window_size prices) = true ->
  isolation_forest_detection prices s = (Ok a, s1) ->
  Poll.cache_untouched s1 s' ->
  isolation_forest_detection prices s' = (Ok a, s').
Proof.
  intros Hrefl Hrun (Hm & He & Hf).
  rewrite Isolation.isolation_forest_detection_eq in Hrun |- *.
  case_decide; [by injection Hrun as <- _|]. cbv zeta in *.
  destruct (lookup_model _ (models s)) as [m|] eqn:Hlook.
  - injection Hrun as Hp <-. by rewrite Hm, Hlook, Hp.
  - destruct (estimators_ _) eqn:Hest; [|done].
    injection Hrun as Hp <-. simpl in Hm. rewrite Hm.
    by rewrite (Isolation.lookup_model_app_None _ _ _ _ Hlook), Hrefl, Hp.
Qed.

Lemma detect_isolation_repeat (data : price_frame) (i : option (list row))
    (s s1 s' : process) :
  Forall (fun p => PrimFloat.eqb p p = true) (Close_values data) ->
  detect data "isolation" s = (Ok i, s1) ->
  Poll.cache_untouched s1 s' ->
  detect data "isolation" s' = (Ok i, s').
Proof.
  intros Hnan Hrun Hsame. rewrite Ledger.detect_isolation_unfold in Hrun |- *.
  case_decide; [by injection Hrun as <- _|].
  destruct (isolation_forest_detection _ s) as [[a|e] s0] eqn:Hiso; [|done].
  assert (s0 = s1) as -> by (by injection Hrun).
  rewrite (isolation_repeat _ a s s1 s'); [|apply tuple_eqb_refl|done..].
  - destruct (AnomalyDetector.detect_results _ _ _ _ _ _); [|done].
    by injection Hrun as <-.
  - by apply Forall_take.
Qed.

(** Merging a frame whose timestamps are all stored changes nothing. *)
Lemma merged_known (h : list row) (new_data : option (list row)) :
  (Spec.records new_data <> [] -> NoDup (Time <$> h)) ->
  (forall t, t ∈ Time <$> Spec.records new_data -> t ∈ Time <$> h) ->
  Spec.merged h new_data = h.
Proof.
  intros Hnd Hin. destruct new_data as [[|r rs]|]; simpl in *; try done.
  rewrite History.drop_duplicates_stored by (by apply Hnd).
  rewrite History.drop_duplicates_from_nil by done. apply app_nil_r.
Qed.

Lemma merged_times (h : list row) (new_data : option (list row)) (t : Z) :
  t ∈ Time <$> h \/ t ∈ Time <$> Spec.records new_data ->
  t ∈ Time <$> Spec.merged h new_data.
Proof.
  destruct new_data as [[|r rs]|]; simpl;
    try (intros [?|Hn]; [done|by apply elem_of_nil in Hn]).
  intros Ht. unfold drop_duplicates.
  rewrite History.drop_duplicates_from_times, fmap_app, elem_of_app.
  split; [apply not_elem_of_nil|done].
Qed.

Lemma merged_NoDup_new (h : list row) (new_data : option (list row)) :
  Spec.records new_data <> [] -> NoDup (Time <$> Spec.merged h new_data).
Proof.
  destruct new_data as [[|r rs]|]; simpl; try done. intros _.
  apply History.drop_duplicates_from_NoDup.
Qed.

(** Merging the two result frames again gives the frame already stored. *)
Lemma merged_again (old : list row) (z i : option (list row)) :
  let h := Spec.merged (Spec.merged old z) i in
  Spec.merged (Spec.merged h z) i = h.
Proof.
  intros h.
  assert (Spec.merged h z = h) as ->.
  { apply merged_known.
    - intros Hz. subst h.
      destruct (decide (Spec.records i = [])) as [Hi|Hi].
      + assert (Spec.merged (Spec.merged old z) i = Spec.merged old z) as ->
          by (by destruct i as [[|r rs]|]).
        by apply merged_NoDup_new.
      + by apply merged_NoDup_new.
    - intros t Ht. subst h. apply merged_times. left. apply merged_times.
      by right. }
  apply merged_known.
  - intros Hi. by apply merged_NoDup_new.
  - intros t Ht. subst h. apply merged_times. by right.
Qed.

(** X10, polling again.  When a ticker that has a frame is polled twice and the
    library gives the same frame both times, the density detector having
    returned the first time: the second poll finds the cached model, fits
    nothing, and leaves the history, the cache and the library's state as
    the first poll left them.  It prints and sends again exactly what the
    first poll printed and sent. *)
Theorem polling_again_changes_nothing (ticker : string)
    (c1 c2 c3 c4 : float) (rows : price_frame) (m : Poll.monitor)
    (old : list row) (i : option (list row)) :
  history (Poll.proc m) !! ticker = Some old ->
  (detect (DataFetcher.dropna rows) "isolation" (Poll.proc m)).1 = Ok i ->
  let m1 := poll ticker c1 c2 (DataFetcher.Frame (Some rows)) m in
  let m2 := poll ticker c3 c4 (DataFetcher.Frame (Some rows)) m1 in
  history (Poll.proc m2) = history (Poll.proc m1) /\
  models (Poll.proc m2) = models (Poll.proc m1) /\
  env (Poll.proc m2) = env (Poll.proc m1) /\
  fit_calls (Poll.proc m2) = fit_calls (Poll.proc m1) /\
  exists printed,
    output (Poll.proc m1) = output (Poll.proc m) ++ printed /\
    output (Poll.proc m2) = output (Poll.proc m1) ++ printed.
Proof.
  intros Hold Hiso m1 m2. subst m2 m1. unfold Poll.poll. simpl.
  pose proof (dropna_no_nan rows) as Hnan.
  destruct (DataFetcher.dropna rows) as [|d rest] eqn:Hdata.
  { simpl. repeat split; try done. by exists [NoData ticker]. }
  destruct (detect (d :: rest) "isolation" (Poll.proc m)) as [r s1] eqn:Hrun.
  simpl in Hiso. subst r.
  rewrite (Ledger.monitor_ticker_run window_size threshold ticker d rest
             (Poll.proc m) s1 old i Hold Hrun).
  set (z := zscore_results (d :: rest)).
  set (h := Spec.merged (Spec.merged old z) i).
  set (s' := mkProcess (models s1) (<[ticker:=h]> (history (Poll.proc m)))
               (env s1) (fit_calls s1)
               (output (Poll.proc m) ++
                Poll.alerts_of ticker z h ++ Poll.alerts_of ticker i h)).
  assert (detect (d :: rest) "isolation" s' = (Ok i, s')) as Hrun'
    by (by apply (detect_isolation_repeat _ i (Poll.proc m) s1 s')).
  rewrite (Ledger.monitor_ticker_run window_size threshold ticker d rest
             s' s' h i); [|by simpl; rewrite lookup_insert_eq|done].
  pose proof (merged_again old z i) as Hagain. cbv zeta in Hagain.
  fold h in Hagain. fold z. rewrite Hagain. simpl.
  rewrite insert_insert_eq. repeat split; try done.
  by exists (Poll.alerts_of ticker z h ++ Poll.alerts_of ticker i h).
Qed.

End Facts.
End Polling.

(** ** The fetcher *)

Module Fetching.
Section Facts.

Context {SK : Sklearn}.

Lemma dropna_sublist (rows : price_frame) :
  DataFetcher.dropna rows `sublist_of` rows.
Proof.
  unfold DataFetcher.dropna. induction rows as [|r rows IH]; simpl; [done|].
  destruct (negb _); [by apply sublist_skip|by apply sublist_cons].
Qed.

Lemma dropna_closes (rows : price_frame) :
  Forall (fun r => PrimFloat.is_nan r.2 = false) (DataFetcher.dropna rows).
Proof.
  unfold DataFetcher.dropna. induction rows as [|r rows IH]; simpl; [done|].
  destruct (PrimFloat.is_nan r.2) eqn:Hr; simpl; [done|by constructor].
Qed.

(** X11, fetched frames.  A frame returned by [fetch_stock_data] holds rows of
    the library's response, in their order, and no NaN close; so the leading
    closes of the frame, whatever the window size, are a tuple equal to
    itself: a key the model cache can find again. *)
Theorem fetched_frame_has_no_nan (ticker : string)
    (clock_before clock_after : float) (resp : DataFetcher.response)
    (last_fetch_time : gmap string float) (frame : price_frame) :
  (DataFetcher.fetch_stock_data ticker clock_before clock_after resp
     last_fetch_time).1.1 = Some frame ->
  (exists rows,
     resp = DataFetcher.Frame (Some rows) /\ frame `sublist_of` rows) /\
  Forall (fun r => PrimFloat.is_nan r.2 = false) frame /\
  forall window_size,
    tuple_eqb (take window_size (Close_values frame))
              (take window_size (Close_values frame)) = true.
Proof.
  unfold DataFetcher.fetch_stock_data.
  destruct resp as [|[rows|]]; simpl; try done. intros [= <-].
  split; [exists rows; split; [done|apply dropna_sublist]|].
  split; [apply dropna_closes|]. intros w.
  apply Polling.tuple_eqb_refl, Forall_take, Polling.dropna_no_nan.
Qed.

(** X12, what passes validation.  The value [fetch_stock_data] returns passes
    [validate_data] exactly when the library returned a frame that has a
    [Close] column with at least one close that is not NaN. *)
Theorem fetch_is_valid_iff (ticker : string) (clock_before clock_after : float)
    (resp : DataFetcher.response) (last_fetch_time : gmap string float)
    (s : process) :
  (StockMonitor.validate_data
     (DataFetcher.fetch_stock_data ticker clock_before clock_after resp
        last_fetch_time).1.1 ticker s).1 = Ok true <->
  exists rows,
    resp = DataFetcher.Frame (Some rows) /\
    Exists (fun r => PrimFloat.is_nan r.2 = false) rows.
Proof.
  unfold DataFetcher.fetch_stock_data.
  destruct resp as [|[rows|]]; simpl.
  - split; [done|]. by intros (rows & ? & _).
  - assert (DataFetcher.dropna rows <> [] <->
            Exists (fun r => PrimFloat.is_nan r.2 = false) rows) as Hne.
    { unfold DataFetcher.dropna. induction rows as [|r rows IH]; simpl.
      - split; [done|]. intros H. by apply Exists_nil in H.
      - rewrite Exists_cons.
        destruct (PrimFloat.is_nan r.2) eqn:Hr; simpl; [|by split; eauto].
        rewrite IH. split; [by right|]. by intros [?|?]. }
    destruct (DataFetcher.dropna rows) as [|d rest] eqn:Hd; simpl.
    + split; [done|]. intros (rows' & [= <-] & Hex). by apply Hne in Hex.
    + split; [|done]. intros _. exists rows. split; [done|]. by apply Hne.
  - split; [done|]. by intros (rows & ? & _).
Qed.

(** X13, the fetcher's bookkeeping.  A request that raised leaves the recorded
    times as they were; one that returned a frame records its time for the
    ticker, usable frame or not; the times of the other tickers are never
    touched; the first request of a ticker does not sleep; and whenever
    [None] is returned an error was printed. *)
Theorem fetch_records_the_request (ticker : string)
    (clock_before clock_after : float) (resp : DataFetcher.response)
    (last_fetch_time : gmap string float) :
  let '(data, times, done) :=
    DataFetcher.fetch_stock_data ticker clock_before clock_after resp
      last_fetch_time in
  times !! ticker =
    match resp with
    | DataFetcher.Failed => last_fetch_time !! ticker
    | DataFetcher.Frame _ => Some clock_after
    end /\
  (forall other, other <> ticker -> times !! other = last_fetch_time !! other) /\
  (last_fetch_time !! ticker = None ->
   forall seconds, DataFetcher.Sleep seconds ∉ done) /\
  (data = None -> DataFetcher.PrintError ticker ∈ done).
Proof.
  unfold DataFetcher.fetch_stock_data.
  set (waited := match last_fetch_time !! ticker with
                 | Some _ => _ | None => _ end).
  assert (last_fetch_time !! ticker = None -> waited = []) as Hfirst
    by (intros H; subst waited; by rewrite H).
  destruct resp as [|[rows|]]; simpl.
  - repeat split; try done.
    + intros Hnone seconds. rewrite (Hfirst Hnone). simpl.
      rewrite elem_of_cons, elem_of_nil. by intros [?|?].
    + intros _. apply elem_of_app. right. apply elem_of_cons. by left.
  - split; [by rewrite lookup_insert_eq|].
    split; [by intros other Hne; rewrite lookup_insert_ne|].
    split; [|done]. intros Hnone seconds. rewrite (Hfirst Hnone).
    apply not_elem_of_nil.
  - split; [by rewrite lookup_insert_eq|].
    split; [by intros other Hne; rewrite lookup_insert_ne|].
    split.
    + intros Hnone seconds. rewrite (Hfirst Hnone). simpl.
      rewrite elem_of_cons, elem_of_nil. by intros [?|?].
    + intros _. apply elem_of_app. right. apply elem_of_cons. by left.
Qed.

End Facts.
End Fetching.

(** ** The standalone monitor *)

Module Script.
Section Facts.

Context {NP : Numpy} {SK : Sklearn}.

Variable window_size : nat.
Variable threshold : float.

Local Abbreviation detect_anomalies :=
  (StandaloneMonitor.detect_anomalies window_size threshold).
Local Abbreviation monitor_cycle :=
  (StandaloneMonitor.monitor_cycle window_size threshold).
Local Abbreviation loop :=
  (Standalone.detect_anomalies_loop window_size threshold).

Local Abbreviation point_at :=
  (StandaloneMonitor.row_at window_size threshold).

(** The loop returns the rows of the evaluated indices, in order. *)
Lemma loop_rows (data : price_frame) :
  loop data =
    Ok (point_at data <$>
          seq window_size (length data - window_size)).
Proof.
  destruct (Duplicate.detect_anomalies_loop_points window_size threshold data)
    as (points & -> & Hlen & Hpts).
  f_equal. apply list_eq. intros k.
  destruct (decide (k < length data - window_size)) as [Hk|Hk].
  - rewrite list_lookup_fmap, lookup_seq_lt by done. simpl.
    destruct (lookup_lt_is_Some_2 data (window_size + k)) as [[t p] Hd];
      [lia|].
    pose proof (Hpts (window_size + k) t p) as Hk'.
    replace (window_size + k - window_size) with k in Hk' by lia.
    rewrite Hk' by (done || lia).
    unfold StandaloneMonitor.row_at, index, Close_values.
    by rewrite !list_lookup_fmap, Hd.
  - rewrite !lookup_ge_None_2; [done| |lia].
    rewrite length_fmap, length_seq. lia.
Qed.

Lemma standalone_history_of_found (ticker : string) (s : StandaloneMonitor.state)
    (old : list Standalone.data_point) :
  StandaloneMonitor.history s !! ticker = Some old ->
  StandaloneMonitor.history_of ticker s = (Ok old, s).
Proof.
  intros H.
  unfold StandaloneMonitor.history_of, mbind, M_bind, Py.bind, Py.get.
  by rewrite H.
Qed.

(** [detect_anomalies] on a frame of at least [window_size] rows, for a
    ticker that has a frame. *)
Lemma detect_anomalies_run (ticker : string) (data : price_frame)
    (s : StandaloneMonitor.state) (old : list Standalone.data_point) :
  window_size <= length data ->
  StandaloneMonitor.history s !! ticker = Some old ->
  let points := point_at data <$>
                  seq window_size (length data - window_size) in
  detect_anomalies ticker (Ok data) s =
    (match points with
     | [] => Raise (KeyError "Anomaly")
     | _ :: _ => Ok (Some (List.filter Standalone.pAnomaly points))
     end,
     StandaloneMonitor.mkState
       (<[ticker := old ++ points]> (StandaloneMonitor.history s))
       (StandaloneMonitor.output s)).
Proof.
  intros Hlen Hold points.
  unfold StandaloneMonitor.detect_anomalies, mbind, M_bind, Py.bind, Py.lift.
  rewrite decide_False by lia. rewrite loop_rows. fold points.
  rewrite (standalone_history_of_found _ _ _ Hold). simpl.
  by destruct points.
Qed.

Lemma exact_window_run (ticker : string) (data : price_frame)
    (s : StandaloneMonitor.state) (old : list Standalone.data_point) :
  length data = window_size ->
  StandaloneMonitor.history s !! ticker = Some old ->
  detect_anomalies ticker (Ok data) s = (Raise (KeyError "Anomaly"), s).
Proof.
  intros Hlen Hold.
  rewrite (detect_anomalies_run ticker data s old) by (done || lia).
  replace (length data - window_size) with 0 by lia. simpl.
  rewrite app_nil_r, insert_id by done. by destruct s.
Qed.

(** X14, a frame of exactly [window_size] rows.  The standalone
    [detect_anomalies] returns [None] for a shorter frame, but a frame of
    exactly [window_size] rows passes that test with nothing to evaluate: the
    result frame then has no column, selecting ['Anomaly'] raises [KeyError],
    and the state is as it was. *)
Theorem exact_window_raises (ticker : string) (data : price_frame)
    (s : StandaloneMonitor.state) (old : list Standalone.data_point) :
  length data = window_size ->
  StandaloneMonitor.history s !! ticker = Some old ->
  detect_anomalies ticker (Ok data) s = (Raise (KeyError "Anomaly"), s) /\
  forall shorter, length shorter < window_size ->
    detect_anomalies ticker (Ok shorter) s = (Ok None, s).
Proof.
  intros Hlen Hold. split; [by eapply exact_window_run|].
  intros shorter Hshort.
  unfold StandaloneMonitor.detect_anomalies, mbind, M_bind, Py.bind, Py.lift.
  by rewrite decide_True.
Qed.

(** X15, no deduplication.  On a frame of more than [window_size] rows the
    standalone [detect_anomalies] appends a row for every evaluated index,
    flagged or not, to the ticker's history and returns the flagged ones;
    fetching the same frame again appends the same rows again: the history
    then holds each of them twice. *)
Theorem every_poll_appends_every_row (ticker : string) (data : price_frame)
    (s : StandaloneMonitor.state) (old : list Standalone.data_point) :
  window_size < length data ->
  StandaloneMonitor.history s !! ticker = Some old ->
  exists points,
    loop data = Ok points /\
    length points = length data - window_size /\
    let once := detect_anomalies ticker (Ok data) s in
    let twice := detect_anomalies ticker (Ok data) once.2 in
    once.1 = Ok (Some (List.filter Standalone.pAnomaly points)) /\
    StandaloneMonitor.history once.2 !! ticker = Some (old ++ points) /\
    twice.1 = once.1 /\
    StandaloneMonitor.history twice.2 !! ticker = Some (old ++ points ++ points).
Proof.
  intros Hlen Hold. eexists. split; [apply loop_rows|].
  split; [by rewrite length_fmap, length_seq|]. cbv zeta.
  rewrite (detect_anomalies_run ticker data s old) by (done || lia).
  remember (point_at data <$>
              seq window_size (length data - window_size)) as points
    eqn:Hpoints.
  assert (points <> []) as Hne.
  { intros ->. apply (f_equal length) in Hpoints.
    rewrite length_fmap, length_seq in Hpoints. simpl in Hpoints. lia. }
  simpl snd.
  rewrite (detect_anomalies_run ticker data _ (old ++ points))
    by (simpl; (lia || by rewrite lookup_insert_eq)).
  rewrite <- Hpoints. simpl.
  destruct points as [|pt points]; [done|].
  rewrite !lookup_insert_eq, <- app_assoc. done.
Qed.

(** X16, the two z-score outputs.  On a frame whose length is not exactly
    [window_size], what the standalone [detect_anomalies] returns and what
    [AnomalyDetector.detect] returns for ['zscore'] are the same rows in the
    same order: same time, price, mean and standard deviation ([None] in
    both when the frame is shorter than the window). *)
Theorem detect_anomalies_agrees_with_detect (ticker : string)
    (data : price_frame) (s : StandaloneMonitor.state)
    (old : list Standalone.data_point) (p : process) :
  length data <> window_size ->
  StandaloneMonitor.history s !! ticker = Some old ->
  exists r,
    (detect_anomalies ticker (Ok data) s).1 = Ok r /\
    AnomalyDetector.detect window_size threshold data "zscore" p =
      (Ok ((fun rows : list Standalone.data_point =>
              StandaloneMonitor.to_row <$> rows) <$> r), p).
Proof.
  intros Hlen Hold. rewrite ZScore.detect_zscore_eq.
  destruct (decide (length data < window_size)) as [Hshort|Hlong].
  { exists None. split; [|done].
    unfold StandaloneMonitor.detect_anomalies, mbind, M_bind, Py.bind, Py.lift.
    by rewrite decide_True. }
  rewrite (detect_anomalies_run ticker data s old) by (done || lia).
  assert (forall l, Forall (fun i => window_size <= i < length data) l ->
    StandaloneMonitor.to_row <$>
      List.filter Standalone.pAnomaly (point_at data <$> l) =
    omap (Spec.flagged_record window_size threshold data) l) as Hrows.
  { induction 1 as [|i l Hi _ IH]; [done|].
    destruct (lookup_lt_is_Some_2 data i) as [[t c] Hd]; [lia|].
    assert (Spec.flagged_record window_size threshold data i =
            if Standalone.pAnomaly (point_at data i)
            then Some (StandaloneMonitor.to_row (point_at data i)) else None)
      as Hrec.
    { unfold Spec.flagged_record, Spec.flagged, Spec.record_of,
        StandaloneMonitor.row_at, index, Close_values, StandaloneMonitor.to_row.
      rewrite !list_lookup_fmap, Hd. simpl.
      by rewrite bool_decide_eq_true_2 by lia. }
    rewrite fmap_cons.
    change (List.filter Standalone.pAnomaly
              (point_at data i :: (point_at data <$> l)))
      with (if Standalone.pAnomaly (point_at data i)
            then point_at data i ::
                   List.filter Standalone.pAnomaly (point_at data <$> l)
            else List.filter Standalone.pAnomaly (point_at data <$> l)).
    change (omap (Spec.flagged_record window_size threshold data) (i :: l))
      with (match Spec.flagged_record window_size threshold data i with
            | Some y => y :: omap (Spec.flagged_record window_size threshold
                                     data) l
            | None => omap (Spec.flagged_record window_size threshold data) l
            end).
    rewrite Hrec, <- IH.
    by destruct (Standalone.pAnomaly (point_at data i)). }
  specialize (Hrows (seq window_size (length data - window_size))).
  remember (point_at data <$> seq window_size (length data - window_size))
    as points eqn:Hpoints.
  destruct points as [|pt points].
  { apply (f_equal length) in Hpoints.
    rewrite length_fmap, length_seq in Hpoints. simpl in Hpoints. lia. }
  exists (Some (List.filter Standalone.pAnomaly (pt :: points))).
  split; [done|]. rewrite <- Hrows; [done|].
  apply Forall_forall. intros i Hi. apply elem_of_seq in Hi. lia.
Qed.

Lemma monitor_cycle_app (before after : list (string * result price_frame))
    (s : StandaloneMonitor.state) :
  monitor_cycle (before ++ after) s =
    match monitor_cycle before s with
    | (Ok _, s1) => monitor_cycle after s1
    | (Raise e, s1) => (Raise e, s1)
    end.
Proof.
  revert s. induction before as [|[t f] before IH]; intros s; simpl; [done|].
  unfold mbind, M_bind, Py.bind.
  destruct (StandaloneMonitor.monitor_ticker _ _ t f s) as [[u|e] s1]; [|done].
  apply IH.
Qed.

(** X17, one frame ends the pass.  Nothing in the standalone loop catches the
    exception of a ticker: when the tickers before it were handled and a
    ticker's frame has exactly [window_size] rows, the pass ends with
    [KeyError] in the state those tickers left, and the tickers after it are
    not handled. *)
Theorem exact_window_ends_the_pass (ticker : string) (data : price_frame)
    (before after : list (string * result price_frame))
    (s s1 : StandaloneMonitor.state) (old : list Standalone.data_point) :
  monitor_cycle before s = (Ok tt, s1) ->
  length data = window_size ->
  StandaloneMonitor.history s1 !! ticker = Some old ->
  monitor_cycle (before ++ (ticker, Ok data) :: after) s =
    (Raise (KeyError "Anomaly"), s1).
Proof.
  intros Hbefore Hlen Hold. rewrite monitor_cycle_app, Hbefore. simpl.
  unfold mbind at 1, M_bind, Py.bind, StandaloneMonitor.monitor_ticker.
  unfold mbind at 1, M_bind, Py.bind.
  by rewrite (exact_window_run ticker data s1 old Hlen Hold).
Qed.

End Facts.
End Script.

(** ** The further properties on concrete runs *)

Module Checked.

(** The cache invariant after the monitor has handled the spike. *)
Lemma cache_entries_fitted_once_spike :
  Poll.cache_sound (Run.monitor_ticker "X" (Some Run.spike) (Run.init ["X"] [])).
Proof.
  apply (Cache.cache_entries_fitted_once (NP := Reference.numpy)
           (SK := Reference.range_forest) 2 3%float).
  exists ["X"], ([] : list bool). apply rtc_once. apply Spec.step_monitor.
Defined.

(** A fit that raises on the first call, the monitor handling another batch,
    then a call with the same leading prices. *)
Lemma failed_fit_is_never_retried_spike :
  let key := take 2 Run.first_call in
  let s := Run.init ["X"] [false] in
  let first := Run.isolation_forest_detection Run.first_call s in
  let s2 := Run.monitor_ticker "X" (Some Run.flat) first.2 in
  first.1 = Raise LibraryError /\
  models first.2 = models s ++ [(key, mkForest 0.05%float None)] /\
  fit_calls first.2 = fit_calls s ++ [(0.05%float, key)] /\
  Run.isolation_forest_detection Run.second_call s2 = (Raise NotFittedError, s2).
Proof.
  apply (Cache.failed_fit_is_never_retried (NP := Reference.numpy)
           (SK := Reference.range_forest) 2 3%float Run.first_call
           Run.second_call (Run.init ["X"] [false])).
  - simpl. lia.
  - simpl. lia.
  - reflexivity.
  - reflexivity.
  - vm_compute. reflexivity.
  - apply rtc_once. apply Spec.step_monitor.
Defined.

(** A second call on prices that start with a NaN, the first call having
    cached a model for them. *)
Lemma nan_key_always_refits_twice :
  let s := (Run.isolation_forest_detection Sample.nan_first
              (Run.init ["X"] [])).2 in
  let s' := (Run.isolation_forest_detection Sample.nan_first s).2 in
  lookup_model (take 2 Sample.nan_first) (models s) = None /\
  length (models s') = S (length (models s)) /\
  fit_calls s' = fit_calls s ++ [(0.05%float, take 2 Sample.nan_first)] /\
  lookup_model (take 2 Sample.nan_first) (models s') = None.
Proof.
  apply (Cache.nan_key_always_refits (SK := Reference.range_forest) 2
           Sample.nan_first 0 nan).
  - simpl. lia.
  - lia.
  - reflexivity.
  - reflexivity.
Defined.

(** The shape of the history after the monitor has handled the spike. *)
Lemma history_frames_keep_their_shape_spike :
  let s := Run.monitor_ticker "X" (Some Run.spike) (Run.init ["X"; "Y"] []) in
  (forall ticker, is_Some (history s !! ticker) <-> ticker ∈ ["X"; "Y"]) /\
  Poll.deduplicated s /\
  (forall ticker h, history s !! ticker = Some h -> Forall Poll.anomaly_row h).
Proof.
  apply (Ledger.history_frames_keep_their_shape (NP := Reference.numpy)
           (SK := Reference.range_forest) 2 3%float ["X"; "Y"]
           ([] : list bool)).
  apply rtc_once. apply Spec.step_monitor.
Defined.

(** A stored anomaly stays first when the spike is merged after it. *)
Lemma stored_rows_stay_late :
  let s' := Run.monitor_ticker "AAPL" (Some Run.spike) Run.stored_late in
  Poll.grown Run.stored_late s' /\ Poll.deduplicated s'.
Proof.
  apply (Ledger.stored_rows_stay (NP := Reference.numpy)
           (SK := Reference.range_forest) 2 3%float).
  - intros ticker h Hh. unfold Run.stored_late in Hh. simpl in Hh.
    apply lookup_singleton_Some in Hh as [_ <-]. apply NoDup_singleton.
  - apply rtc_once. apply Spec.step_monitor.
Defined.

(** The spike, with a fit that raises. *)
Lemma density_failure_drops_the_batch_spike :
  let s := Run.init ["X"] [false] in
  let s' := Run.monitor_ticker "X" (Some Run.spike) s in
  s' = emit (LogError "X" LibraryError) (Run.detect Run.spike "isolation" s).2 /\
  history s' = history s /\
  output s' = output s ++ [LogError "X" LibraryError].
Proof.
  apply (Ledger.density_failure_drops_the_batch (NP := Reference.numpy)
           (SK := Reference.range_forest) 2 3%float "X" (0%Z, 9%float)
           Run.spike_tail (Run.init ["X"] [false]) LibraryError).
  vm_compute. reflexivity.
Defined.

(** A pass with a failed request and an empty frame. *)
Lemma failed_fetches_only_log_two :
  let s := Run.init ["X"; "Y"] [] in
  StockMonitor.monitor_cycle (NP := Reference.numpy) 2 3%float
      [("X", None); ("Y", Some [])] s =
    mkProcess (models s) (history s) (env s) (fit_calls s)
      (output s ++ [NoData "X"; NoData "Y"]).
Proof.
  apply (Ledger.failed_fetches_only_log (NP := Reference.numpy)
           (SK := Reference.range_forest) 2 3%float
           [("X", None); ("Y", Some [])] (Run.init ["X"; "Y"] [])).
  apply Forall_cons. split; [by left|].
  apply Forall_cons. split; [by right|]. apply Forall_nil_2.
Defined.

(** The alerts for the spike, which both detectors flag. *)
Lemma alerts_follow_the_merges_spike :
  let s := Run.init ["X"] [] in
  let s' := Run.monitor_ticker "X" (Some Run.spike) s in
  let z := Poll.zscore_results (NP := Reference.numpy) 2 3%float Run.spike in
  let i := Some [mkRow 4 50 nan nan "isolation" true] in
  exists h,
    history s' !! "X" = Some h /\
    output s' = output s ++ Poll.alerts_of "X" z h ++ Poll.alerts_of "X" i h.
Proof.
  apply (Ledger.alerts_follow_the_merges (NP := Reference.numpy)
           (SK := Reference.range_forest) 2 3%float "X" (0%Z, 9%float)
           Run.spike_tail (Run.init ["X"] []) []).
  - vm_compute. reflexivity.
  - vm_compute. reflexivity.
Defined.

(** The labels of the range forest for the spike: only the spike is [-1]. *)
Lemma detect_isolation_rows_spike :
  let s := Run.init ["X"] [] in
  Run.detect Run.spike "isolation" s =
    (Ok (Some (omap (Poll.outlier_record Run.spike [1; 1; 1; 1; -1; 1]%Z)
                 (seq 0 (length Run.spike)))),
     (Run.isolation_forest_detection (Close_values Run.spike) s).2).
Proof.
  apply (Polling.detect_isolation_rows (NP := Reference.numpy)
           (SK := Reference.range_forest) 2 3%float Run.spike
           [1; 1; 1; 1; -1; 1]%Z (Run.init ["X"] [])).
  - vm_compute. reflexivity.
  - reflexivity.
Defined.

(** Two polls that get the same response, a row of it without a close. *)
Lemma polling_again_changes_nothing_spike :
  let m := Sample.fresh ["X"] [] in
  let m1 := Sample.poll "X" 0 1 (DataFetcher.Frame (Some Sample.response_rows))
              m in
  let m2 := Sample.poll "X" 300 301
              (DataFetcher.Frame (Some Sample.response_rows)) m1 in
  history (Poll.proc m2) = history (Poll.proc m1) /\
  models (Poll.proc m2) = models (Poll.proc m1) /\
  env (Poll.proc m2) = env (Poll.proc m1) /\
  fit_calls (Poll.proc m2) = fit_calls (Poll.proc m1) /\
  exists printed,
    output (Poll.proc m1) = output (Poll.proc m) ++ printed /\
    output (Poll.proc m2) = output (Poll.proc m1) ++ printed.
Proof.
  apply (Polling.polling_again_changes_nothing (NP := Reference.numpy)
           (SK := Reference.range_forest) 2 3%float "X" 0 1 300 301
           Sample.response_rows (Sample.fresh ["X"] []) []
           (Some [mkRow 5 50 nan nan "isolation" true])).
  - vm_compute. reflexivity.
  - vm_compute. reflexivity.
Defined.

(** The frame fetched from a response with a missing close. *)
Lemma fetched_frame_has_no_nan_spike :
  (exists rows,
     DataFetcher.Frame (Some Sample.response_rows) = DataFetcher.Frame (Some rows)
     /\ DataFetcher.dropna Sample.response_rows `sublist_of` rows) /\
  Forall (fun r => PrimFloat.is_nan r.2 = false)
    (DataFetcher.dropna Sample.response_rows) /\
  forall window_size,
    tuple_eqb
      (take window_size (Close_values (DataFetcher.dropna Sample.response_rows)))
      (take window_size (Close_values (DataFetcher.dropna Sample.response_rows)))
    = true.
Proof.
  apply (Fetching.fetched_frame_has_no_nan "X" 0 1
           (DataFetcher.Frame (Some Sample.response_rows)) ∅).
  reflexivity.
Defined.

(** The standalone monitor on a frame of exactly two rows. *)
Lemma exact_window_raises_two :
  Sample.detect_anomalies "X" (Ok Sample.two_rows) (StandaloneMonitor.init ["X"])
    = (Raise (KeyError "Anomaly"), StandaloneMonitor.init ["X"]) /\
  forall shorter, length shorter < 2 ->
    Sample.detect_anomalies "X" (Ok shorter) (StandaloneMonitor.init ["X"])
      = (Ok None, StandaloneMonitor.init ["X"]).
Proof.
  apply (Script.exact_window_raises (NP := Reference.numpy) 2 3%float "X"
           Sample.two_rows (StandaloneMonitor.init ["X"]) []).
  - reflexivity.
  - vm_compute. reflexivity.
Defined.

(** The standalone monitor fetching the spike twice. *)
Lemma every_poll_appends_every_row_spike :
  exists points,
    Standalone.detect_anomalies_loop (NP := Reference.numpy) 2 3%float Run.spike
      = Ok points /\
    length points = length Run.spike - 2 /\
    let once := Sample.detect_anomalies "X" (Ok Run.spike)
                  (StandaloneMonitor.init ["X"]) in
    let twice := Sample.detect_anomalies "X" (Ok Run.spike) once.2 in
    once.1 = Ok (Some (List.filter Standalone.pAnomaly points)) /\
    StandaloneMonitor.history once.2 !! "X" = Some ([] ++ points) /\
    twice.1 = once.1 /\
    StandaloneMonitor.history twice.2 !! "X" = Some ([] ++ points ++ points).
Proof.
  apply (Script.every_poll_appends_every_row (NP := Reference.numpy) 2 3%float
           "X" Run.spike (StandaloneMonitor.init ["X"]) []).
  - simpl. lia.
  - vm_compute. reflexivity.
Defined.

(** The two z-score outputs on the spike. *)
Lemma detect_anomalies_agrees_with_detect_spike :
  exists r,
    (Sample.detect_anomalies "X" (Ok Run.spike)
       (StandaloneMonitor.init ["X"])).1 = Ok r /\
    Run.detect Run.spike "zscore" (Run.init ["X"] []) =
      (Ok ((fun rows : list Standalone.data_point =>
              StandaloneMonitor.to_row <$> rows) <$> r), Run.init ["X"] []).
Proof.
  apply (Script.detect_anomalies_agrees_with_detect (NP := Reference.numpy)
           (SK := Reference.range_forest) 2 3%float "X" Run.spike
           (StandaloneMonitor.init ["X"]) [] (Run.init ["X"] [])).
  - simpl. lia.
  - vm_compute. reflexivity.
Defined.

(** A pass over X, Y and Z in which Y's frame has exactly two rows. *)
Lemma exact_window_ends_the_pass_second :
  let s := StandaloneMonitor.init ["X"; "Y"; "Z"] in
  let s1 := (Sample.monitor_cycle [("X", Ok Run.spike)] s).2 in
  Sample.monitor_cycle
    ([("X", Ok Run.spike)] ++ ("Y", Ok Sample.two_rows) :: [("Z", Ok Run.spike)])
    s = (Raise (KeyError "Anomaly"), s1).
Proof.
  apply (Script.exact_window_ends_the_pass (NP := Reference.numpy) 2 3%float
           "Y" Sample.two_rows [("X", Ok Run.spike)] [("Z", Ok Run.spike)]
           (StandaloneMonitor.init ["X"; "Y"; "Z"]) _ []).
  - vm_compute. reflexivity.
  - reflexivity.
  - vm_compute. reflexivity.
Defined.

End Checked.
